(** * crazyParser.py: a shallow embedding and its verified properties

    The script runs two typo-domain generators (urlcrazy, dnstwist) for every
    monitored domain, parses the files they leave in the output directory,
    drops the domains already listed in knowndomains.csv, removes duplicates
    and writes the remaining domains to the results file.

    The embedding follows the Python source function by function.  The file
    system is a finite map from path names to files (a file is the list of
    its lines), the process-wide [tempFiles] list and the [atexit] registry
    are fields of the state that every function threads, and exceptions and
    [sys.exit] are results of a small state-and-exception monad. *)

From Stdlib Require Import Ascii.
From stdpp Require Import gmap strings list fin_maps.

(** ** The deduplicator (crazyParser.py, [dedup]) *)

Section dedup.
Context {A K : Type} `{Countable K}.

(** [idfun] maps an item to the marker that is stored in the [seen]
    dictionary. *)
Variable idfun : A → K.

(** One iteration of [for item in domainslist]: the state is the pair of
    the [seen] dictionary and the [result] list. *)
Definition dedup_step (st : gmap K nat * list A) (item : A)
  : gmap K nat * list A :=
  let marker := idfun item in
  match st.1 !! marker with
  | Some _ => st                                  (* if marker in seen: continue *)
  | None => (<[marker := 1]> st.1, st.2 ++ [item])
  end.

Definition dedup_loop (domainslist : list A) : gmap K nat * list A :=
  foldl dedup_step (∅, []) domainslist.

(** [dedup(domainslist, idfun)] with an explicit [idfun]. *)
Definition dedup_with (domainslist : list A) : list A :=
  (dedup_loop domainslist).2.

End dedup.

(** [dedup(domainslist)]: with [idfun=None] the marker of an item is the
    item itself. *)
Definition dedup {A : Type} `{Countable A} (domainslist : list A) : list A :=
  dedup_with id domainslist.

(** The deduplicator as the specification words it: the element at index
    [i] is kept exactly when it does not occur among the [i] elements before
    it, and the kept elements stay in their order. *)
Definition first_occurrences {A : Type} `{EqDecision A} (l : list A) : list A :=
  omap (λ i, x ← l !! i; if decide (x ∈ take i l) then None else Some x)
       (seq 0 (length l)).

(** ** Python values, exceptions and strings *)

(** The values a [csv.DictReader] row holds under a field name: a string, or
    [None] (the reader's [restval]) when the row is shorter than the
    header. *)
Inductive pyval : Type :=
  | PNone
  | PStr (s : string).

#[global] Instance pyval_eq_dec : EqDecision pyval.
Proof. solve_decision. Defined.

#[global] Instance pyval_countable : Countable pyval :=
  inj_countable'
    (λ v, match v with PNone => None | PStr s => Some s end)
    (λ o, match o with None => PNone | Some s => PStr s end)
    (λ v, match v with PNone => eq_refl | PStr _ => eq_refl end).

(** The exceptions the script can meet.  [sys.exit(status)] raises
    [SystemExit]. *)
Inductive exn : Type :=
  | OSError
  | IOError
  | CalledProcessError
  | StopIteration
  | IndexError
  | KeyError
  | CsvError
  | SMTPException
  | SystemExit (status : option Z).

#[global] Instance exn_eq_dec : EqDecision exn.
Proof. solve_decision. Defined.

(** What [print sys.exc_info()[0]] shows for an exception class. *)
Definition exn_repr (e : exn) : string :=
  match e with
  | OSError => "<type 'exceptions.OSError'>"
  | IOError => "<type 'exceptions.IOError'>"
  | CalledProcessError => "<class 'subprocess.CalledProcessError'>"
  | StopIteration => "<type 'exceptions.StopIteration'>"
  | IndexError => "<type 'exceptions.IndexError'>"
  | KeyError => "<type 'exceptions.KeyError'>"
  | CsvError => "<class '_csv.Error'>"
  | SMTPException => "<class 'smtplib.SMTPException'>"
  | SystemExit _ => "<type 'exceptions.SystemExit'>"
  end.

(** [s.endswith(suffix)] *)
Definition endswith (s suffix : string) : bool :=
  let n := String.length s in
  let k := String.length suffix in
  (k <=? n) && String.eqb (String.substring (n - k) k s) suffix.

(** [s.startswith(prefix)] *)
Fixpoint startswith (s prefix : string) {struct prefix} : bool :=
  match prefix, s with
  | EmptyString, _ => true
  | String a prefix', String b s' => Ascii.eqb a b && startswith s' prefix'
  | String _ _, EmptyString => false
  end.

(** The characters [str.rstrip()] removes: space, tab, newline, vertical
    tab, form feed, carriage return. *)
Definition is_space (c : Ascii.ascii) : bool :=
  let n := Ascii.nat_of_ascii c in (n =? 32) || ((9 <=? n) && (n <=? 13)).

(** [s.rstrip()].  The lines of a file are kept without their terminator;
    [rstrip] removes a trailing newline with the rest of the trailing
    white space, so it gives the same string on the line as Python reads
    it. *)
Fixpoint rstrip (s : string) : string :=
  match s with
  | EmptyString => EmptyString
  | String c s' =>
      match rstrip s' with
      | EmptyString => if is_space c then EmptyString else String c EmptyString
      | r => String c r
      end
  end.

(** [row.replace('\0', '')] *)
Fixpoint replace_nul (s : string) : string :=
  match s with
  | EmptyString => EmptyString
  | String c s' =>
      if Ascii.eqb c Ascii.zero then replace_nul s' else String c (replace_nul s')
  end.

(** [os.path.join(a, b)] of posixpath. *)
Definition path_join (a b : string) : string :=
  if startswith b "/" then b
  else if String.eqb a EmptyString || endswith a "/" then a +:+ b
  else a +:+ "/" +:+ b.

(** ** Results and the process state *)

Inductive result (A : Type) : Type :=
  | Ok (a : A)
  | Raise (e : exn).
Arguments Ok {A} a.
Arguments Raise {A} e.

(** A message handed to the SMTP server by [sendMail]. *)
Record message : Type := Message {
  msg_subject : string;
  msg_text : string;
  msg_attachment : option (list string)
}.

(** The state of a run: the file system (path name to lines), what was
    printed, the module-level [tempFiles] list, the functions registered
    with [atexit] (each is [doCleanup] with the recorded [docRoot]), the
    argument vectors of the subprocesses started so far, and the messages
    given to the mail server. *)
Record world : Type := World {
  fs : gmap string (list string);
  stdout : list string;
  tempFiles : list string;
  exitfuncs : list string;
  subprocesses : list (list string);
  outbox : list message
}.

Definition set_fs (f : gmap string (list string) → gmap string (list string))
    (w : world) : world :=
  World (f (fs w)) (stdout w) (tempFiles w) (exitfuncs w) (subprocesses w) (outbox w).

(** The state in which the interpreter starts [main]: [tempFiles = []],
    nothing printed, nothing registered. *)
Definition initial (fs0 : gmap string (list string)) : world :=
  World fs0 [] [] [] [] [].

(** What iterating a [csv.reader] gives: the records it yields, then either
    the normal end of the iteration or a [_csv.Error]. *)
Record reader : Type := Reader {
  records : list (list string);
  broken : bool
}.

(** How starting a subprocess ends: the program cannot be started
    ([OSError]), or it runs, leaves the file system in a new state and exits
    with a status and what it wrote to its standard output. *)
Inductive process_result : Type :=
  | NotStarted
  | Exited (status : Z) (output : list string) (fs' : gmap string (list string)).

(** What the script takes from outside its own source: the tokenizer and
    the row formatter of the [csv] module, the operating system's process
    execution and directory permissions, and the mail server. *)
Class Platform : Type := {
  csv_reader : list string → reader;
  csv_writerow : list pyval → string;
  run_process : list string → gmap string (list string) → process_result;
  access_X_OK : string → bool;
  tempfile_ok : string → bool;
  creatable : string → bool;
  isdir : string → bool;
  getcwd : string;
  smtp_send : message → option exn
}.

(** ** The state-and-exception monad of the script *)

Definition M (A : Type) : Type := world → result A * world.

#[global] Instance M_ret : MRet M := λ A a w, (Ok a, w).

#[global] Instance M_bind : MBind M := λ A B f m w,
  match m w with
  | (Ok a, w') => f a w'
  | (Raise e, w') => (Raise e, w')
  end.

Definition raise {A : Type} (e : exn) : M A := λ w, (Raise e, w).

(** [sys.exit()] and [sys.exit(n)] *)
Definition sys_exit {A : Type} (status : option Z) : M A :=
  raise (SystemExit status).

(** A pure computation that may raise. *)
Definition lift {A : Type} (r : result A) : M A := λ w, (r, w).

(** [try: body except <class>: handler]; [catches e] says whether the
    clause matches the exception.  A bare [except:] matches all of them. *)
Definition try_except {A : Type} (body : M A) (catches : exn → bool)
    (handler : exn → M A) : M A := λ w,
  match body w with
  | (Raise e, w') => if catches e then handler e w' else (Raise e, w')
  | r => r
  end.

Definition bare (e : exn) : bool := true.
Definition only (c : exn) (e : exn) : bool := bool_decide (e = c).

(** [for x in l: body x] *)
Fixpoint for_each {A : Type} (l : list A) (body : A → M unit) : M unit :=
  match l with
  | [] => mret tt
  | x :: l' => body x ;; for_each l' body
  end.

(** A loop that updates a local variable [s]. *)
Fixpoint for_fold {A S : Type} (l : list A) (s : S) (body : S → A → M S) : M S :=
  match l with
  | [] => mret s
  | x :: l' => s' ← body s x; for_fold l' s' body
  end.

(** The same loop for a body without effects on the state of the run. *)
Fixpoint fold_result {A S : Type} (l : list A) (s : S)
    (body : S → A → result S) : result S :=
  match l with
  | [] => Ok s
  | x :: l' =>
      match body s x with
      | Ok s' => fold_result l' s' body
      | Raise e => Raise e
      end
  end.

(** *** Primitives of the run *)

Definition print (line : string) : M unit := λ w,
  (Ok tt, World (fs w) (stdout w ++ [line]) (tempFiles w) (exitfuncs w)
             (subprocesses w) (outbox w)).

(** [tempFiles.append(path)] *)
Definition tempFiles_append (path : string) : M unit := λ w,
  (Ok tt, World (fs w) (stdout w) (tempFiles w ++ [path]) (exitfuncs w)
             (subprocesses w) (outbox w)).

Definition get_tempFiles : M (list string) := λ w, (Ok (tempFiles w), w).

(** [atexit.register(doCleanup, docRoot)] *)
Definition atexit_register (docRoot : string) : M unit := λ w,
  (Ok tt, World (fs w) (stdout w) (tempFiles w) (docRoot :: exitfuncs w)
             (subprocesses w) (outbox w)).

(** [os.access(path, os.F_OK)] *)
Definition access_F_OK (path : string) : M bool := λ w,
  (Ok (bool_decide (is_Some (fs w !! path))), w).

(** [os.remove(path)]: raises [OSError] when there is no such file. *)
Definition os_remove (path : string) : M unit := λ w,
  match fs w !! path with
  | Some _ => (Ok tt, set_fs (delete path) w)
  | None => (Raise OSError, w)
  end.

(** Reading all lines of [open(path, 'rbU')]: [IOError] when there is no
    such file. *)
Definition open_read (path : string) : M (list string) := λ w,
  match fs w !! path with
  | Some lines => (Ok lines, w)
  | None => (Raise IOError, w)
  end.

Section primitives.
Context `{Platform}.

(** [open(path, 'wb')]: creates the file, or empties the one that is
    there; [IOError] when it cannot be created. *)
Definition open_write (path : string) : M unit := λ w,
  if creatable path then (Ok tt, set_fs <[path := []]> w)
  else (Raise IOError, w).

(** [f.write(text)] on a file opened for writing: every call adds the
    lines it is given at the end. *)
Definition file_write (path : string) (text : list string) : M unit := λ w,
  (Ok tt, set_fs (alter (λ old, old ++ text) path) w).

(** The name of a directory as the prefix of the paths of its entries. *)
Definition dir_prefix (d : string) : string :=
  if String.eqb d EmptyString || endswith d "/" then d else d +:+ "/".

(** The rest of [s] after [pre], when [s] starts with [pre]. *)
Fixpoint strip_prefix (pre s : string) : option string :=
  match pre, s with
  | EmptyString, _ => Some s
  | String a pre', String b s' =>
      if Ascii.eqb a b then strip_prefix pre' s' else None
  | String _ _, EmptyString => None
  end.

Fixpoint has_slash (s : string) : bool :=
  match s with
  | EmptyString => false
  | String c s' => Ascii.eqb c "/"%char || has_slash s'
  end.

(** A name that [os.listdir] can return: not empty, one path component. *)
Definition entry_name (f : string) : bool :=
  negb (String.eqb f EmptyString) && negb (has_slash f).

(** [os.listdir(d)]: the names of the files directly in [d]. *)
Definition listdir (d : string) (files : gmap string (list string))
  : list string :=
  omap (λ p, f ← strip_prefix (dir_prefix d) p;
             if entry_name f then Some f else None)
       (map_to_list files).*1.

Definition os_listdir (d : string) : M (list string) := λ w,
  (Ok (listdir d (fs w)), w).

Definition record_subprocess (argv : list string) (w : world) : world :=
  World (fs w) (stdout w) (tempFiles w) (exitfuncs w)
        (subprocesses w ++ [argv]) (outbox w).

(** [subprocess.call(argv, stdout=devnull, ...)]: the exit status of the
    program, [OSError] when it cannot be started. *)
Definition subprocess_call (argv : list string) : M Z := λ w,
  let w := record_subprocess argv w in
  match run_process argv (fs w) with
  | NotStarted => (Raise OSError, w)
  | Exited status _ fs' => (Ok status, set_fs (λ _, fs') w)
  end.

(** [subprocess.check_output(argv)]: what the program wrote to its
    standard output, [CalledProcessError] when its exit status is not 0. *)
Definition subprocess_check_output (argv : list string) : M (list string) := λ w,
  let w := record_subprocess argv w in
  match run_process argv (fs w) with
  | NotStarted => (Raise OSError, w)
  | Exited status output fs' =>
      if decide (status = 0%Z) then (Ok output, set_fs (λ _, fs') w)
      else (Raise CalledProcessError, set_fs (λ _, fs') w)
  end.
End primitives.

(** ** Reading CSV files *)

#[global] Instance result_ret : MRet result := λ A a, Ok a.

#[global] Instance result_bind : MBind result := λ A B f r,
  match r with
  | Ok a => f a
  | Raise e => Raise e
  end.

(** A row of a [csv.DictReader]: the values under the field names, and under
    the key [None] (the reader's [restkey]) the fields beyond the header. *)
Record dictrow : Type := DictRow {
  named : gmap string pyval;
  rest : option (list string)
}.

(** [len(row)] *)
Definition dict_len (row : dictrow) : nat :=
  size (named row) + match rest row with Some _ => 1 | None => 0 end.

(** [row[key]] for a string key: [KeyError] when the key is missing. *)
Definition getitem (row : dictrow) (key : string) : result pyval :=
  match named row !! key with
  | Some v => Ok v
  | None => Raise KeyError
  end.

(** The dictionary [DictReader.next] builds from a record:
    [d = dict(zip(fieldnames, row))], then the fields beyond the header go
    under [restkey], or the missing ones are set to [restval]. *)
Definition make_dictrow (fieldnames row : list string) : dictrow :=
  let d := foldl (λ m kv, <[kv.1 := PStr kv.2]> m) ∅ (zip fieldnames row) in
  let lf := length fieldnames in
  let lr := length row in
  if decide (lf < lr) then DictRow d (Some (drop lf row))
  else DictRow (foldl (λ m key, <[key := PNone]> m) d (drop lr fieldnames)) None.

(** [csv.DictReader(f)]: the first record gives the field names, empty
    records are passed over, every other record becomes a dictionary. *)
Definition DictReader (r : reader) : list dictrow * bool :=
  match records r with
  | [] => ([], broken r)
  | fieldnames :: rows =>
      (make_dictrow fieldnames <$> filter (λ row, row ≠ []) rows, broken r)
  end.

(** [for row in reader: s = body s row], where the iteration ends with a
    [_csv.Error] when the reader is broken after its last record. *)
Definition iterate {R S : Type} (rows : list R) (bad : bool) (s : S)
    (body : S → R → result S) : result S :=
  s' ← fold_result rows s body;
  if bad then Raise CsvError else Ok s'.

(** ** The functions of crazyParser.py *)

Definition urlcrazyPath : string := "/usr/bin/urlcrazy".
Definition dnstwistPath : string := "/opt/dnstwist/dnstwist.py".

Section script.
Context `{Platform}.

(** [TemporaryFile('w+b', bufsize=-1, dir=docRoot)]: the file is unlinked
    as soon as it is created, so no file is left. *)
Definition TemporaryFile (dir : string) : M unit :=
  if tempfile_ok dir then mret tt else raise OSError.

Definition checkPerms (docRoot resultsFile : string) : M unit :=
  (if negb (access_X_OK docRoot) then
     print ("Destination directory " +:+ docRoot +:+ " not accessible.");;
     print "Please check permissions.  Exiting...";;
     sys_exit None
   else mret tt);;
  try_except (TemporaryFile docRoot) (only OSError) (λ _,
     print ("Unable to write to desired directory: " +:+ docRoot +:+ ".");;
     print "Please check permissions.  Exiting...";;
     sys_exit None).

Definition checkDepends (myDomains knownDomains : string)
    (urlcrazy dnstwist : bool) : M unit :=
  my ← access_F_OK myDomains;
  known ← access_F_OK knownDomains;
  (if negb my || negb known then
     print "Required configuration files - mydomains.csv or knowndomains.csv - not found.";;
     print "Please verify configuration.";;
     sys_exit None
   else mret tt);;
  (if urlcrazy then
     found ← access_F_OK urlcrazyPath;
     if negb found then
       print ("URLCrazy specified as " +:+ urlcrazyPath +:+ " but was not found.");;
       print "Please check urlcrazyPath in crazyParser.py.  Exiting...";;
       sys_exit None
     else mret tt
   else mret tt);;
  (if dnstwist then
     found ← access_F_OK dnstwistPath;
     if negb found then
       print ("DNStwist specified as " +:+ dnstwistPath +:+ "but was not found.");;
       print "Please check urlcrazyPath in crazyParser.py.  Exiting...";;
       sys_exit None
     else mret tt
   else mret tt).

(** The body of [for domain in domains] in [doCrazy]; [domain] is a line
    of mydomains.csv. *)
Definition doCrazy_domain (docRoot : string) (urlcrazy dnstwist : bool)
    (domain : string) : M unit :=
  let ucoutfile := path_join docRoot (rstrip domain +:+ ".uctmp") in
  let dtoutfile := path_join docRoot (rstrip domain +:+ ".dttmp") in
  let domain := rstrip domain in
  let ucargs := [urlcrazyPath; "-f"; "csv"; "-o"; ucoutfile; domain] in
  (if urlcrazy then
     try_except
       (subprocess_call ucargs;;
        tempFiles_append ucoutfile)
       bare
       (λ e, print ("Unexpected error running urlcrazy: " +:+ exn_repr e))
   else mret tt);;
  let dtargs := [dnstwistPath; "-r"; "-c"; domain] in
  (if dnstwist then
     try_except
       (open_write dtoutfile;;
        output ← subprocess_check_output dtargs;
        file_write dtoutfile output;;
        tempFiles_append dtoutfile)
       bare
       (λ e, print ("Unexpected error running dnstwist: " +:+ exn_repr e))
   else mret tt).

Definition doCrazy (docRoot resultsFile myDomains : string)
    (urlcrazy dnstwist : bool) : M unit :=
  try_except (os_remove resultsFile) (only OSError) (λ _, mret tt);;
  domains ← open_read myDomains;
  for_each domains (doCrazy_domain docRoot urlcrazy dnstwist).

(** The loop that fills [knowndom] from knowndomains.csv. *)
Definition load_knowndom (domfile : list string) : result (list pyval) :=
  let '(rows, bad) := DictReader (csv_reader domfile) in
  iterate rows bad [] (λ knowndom row,
    v ← getitem row "Domain";
    Ok (knowndom ++ [v])).

(** The body of [for row in reader] for a urlcrazy file. *)
Definition urlcrazy_row (knowndom domains : list pyval) (row : dictrow)
  : result (list pyval) :=
  if decide (dict_len row ≠ 0) then
    cc ← getitem row "CC-A";
    if decide (cc ≠ PStr "?") then
      typo ← getitem row "Typo";
      if decide (typo ∈ knowndom) then Ok domains
      else Ok (domains ++ [typo])
    else Ok domains
  else Ok domains.

(** One urlcrazy file: the null bytes are taken out of every line before
    the reader sees it. *)
Definition parse_urlcrazy (knowndom : list pyval) (domains : list pyval)
    (csvfile : list string) : result (list pyval) :=
  let '(rows, bad) := DictReader (csv_reader (replace_nul <$> csvfile)) in
  iterate rows bad domains (urlcrazy_row knowndom).

(** The body of [for row in reader] for a dnstwist file: [row[1]] raises
    [IndexError] on a record with fewer than two fields. *)
Definition dnstwist_row (knowndom domains : list pyval) (row : list string)
  : result (list pyval) :=
  match row !! 1 with
  | None => Raise IndexError
  | Some d =>
      if decide (PStr d ∈ knowndom) then Ok domains
      else Ok (domains ++ [PStr d])
  end.

(** One dnstwist file: the two calls of [next(reader)] raise
    [StopIteration] when the reader has no record left. *)
Definition parse_dnstwist (knowndom : list pyval) (domains : list pyval)
    (csvfile : list string) : result (list pyval) :=
  let r := csv_reader csvfile in
  match records r with
  | _ :: _ :: rows => iterate rows (broken r) domains (dnstwist_row knowndom)
  | _ => Raise (if broken r then CsvError else StopIteration)
  end.

(** The files [parseOutput] reads for a generator: the entries of
    [docRoot] whose name ends in [suffix], joined to [docRoot]. *)
Definition scan (docRoot suffix : string) : M (list string) :=
  names ← os_listdir docRoot;
  mret (path_join docRoot <$> filter (λ f, endswith f suffix = true) names).

(** Lines 139 to 183 of [parseOutput]: the list [domains] before it is
    deduplicated. *)
Definition collect (docRoot knownDomains : string) (urlcrazy dnstwist : bool)
  : M (list pyval) :=
  domfile ← open_read knownDomains;
  knowndom ← lift (load_knowndom domfile);
  domains ← (if urlcrazy then
               ucfiledict ← scan docRoot ".uctmp";
               for_fold ucfiledict [] (λ domains file,
                 csvfile ← open_read file;
                 lift (parse_urlcrazy knowndom domains csvfile))
             else mret []);
  if dnstwist then
    dtfiledict ← scan docRoot ".dttmp";
    for_fold dtfiledict domains (λ domains file,
      csvfile ← open_read file;
      lift (parse_dnstwist knowndom domains csvfile))
  else mret domains.

(** Lines 188 to 196 of [parseOutput]: the result writer. *)
Definition write_results (resultsFile : string) (domains : list pyval) : M unit :=
  open_write resultsFile;;
  file_write resultsFile [csv_writerow [PStr "Domain"]];;
  for_each domains (λ row, file_write resultsFile [csv_writerow [row]]).

(** The lines [write_results] leaves in the results file. *)
Definition artifact (domains : list pyval) : list string :=
  csv_writerow [PStr "Domain"] :: ((λ row, csv_writerow [row]) <$> domains).

Definition parseOutput (docRoot knownDomains resultsFile : string)
    (urlcrazy dnstwist : bool) : M unit :=
  domains ← collect docRoot knownDomains urlcrazy dnstwist;
  let domains := dedup domains in
  write_results resultsFile domains.

(** [mailServer.sendmail(...)] with the steps around it: the message is
    handed to the SMTP server, which may fail. *)
Definition smtp_deliver (msg : message) : M unit := λ w,
  let w' := World (fs w) (stdout w) (tempFiles w) (exitfuncs w)
                  (subprocesses w) (outbox w ++ [msg]) in
  match smtp_send msg with
  | Some e => (Raise e, w')
  | None => (Ok tt, w')
  end.

(** The inner function [mail] of [sendMail]: the results file is attached
    when it has at least two lines. *)
Definition mail (subject text attachment : string) (numResults : nat) : M unit :=
  part ← (if decide (2 ≤ numResults) then
            payload ← open_read attachment; mret (Some payload)
          else mret None);
  smtp_deliver (Message subject text part).

Definition sendMail (resultsFile : string) : M unit :=
  let attachment := resultsFile in
  lines ← open_read attachment;
  let numResults := length lines in
  if decide (numResults = 1) then
    mail "Daily DNS typosquatting recon report"
         "There were no new results in today's scan"
         attachment numResults
  else
    mail "Daily DNS typosquatting recon report"
         "The results from today's DNS typosquatting scan are attached"
         attachment numResults.

(** [filedict] is filled from the directory listing and not read again;
    the files that are removed are the ones in [tempFiles]. *)
Definition doCleanup (docRoot : string) : M unit :=
  names ← os_listdir docRoot;
  let filedict :=
    path_join docRoot <$>
      filter (λ f, endswith f ".uctmp" || endswith f ".dttmp" = true) names in
  registered ← get_tempFiles;
  for_each registered (λ f,
    try_except (os_remove f) (only OSError)
      (λ _, print ("Error removing temporary file: " +:+ f))).

(** The namespace [parser.parse_args()] returns. *)
Record arguments : Type := Namespace {
  config : string;
  output : string;
  directory : string;
  email : bool;
  dnstwist : bool;
  urlcrazy : bool
}.

Definition usage : string :=
  "usage: crazyParser.py [-h] [-c CONFIG] [-o OUTPUT] [-d DIRECTORY] [-m] [--dnstwist] [--urlcrazy]".

(** [main], from the test of [len(sys.argv)] on; [argc] is
    [len(sys.argv)] and [args] the parsed command line. *)
Definition main (argc : nat) (args : arguments) : M unit :=
  (if decide (argc = 1) then print usage;; sys_exit (Some 1%Z) else mret tt);;
  configDir ← (if decide (config args ≠ getcwd) then
                 if isdir (config args) then mret (config args)
                 else
                   print ("ERROR! Specified configuration directory "
                          +:+ config args +:+ " does not exist!");;
                   print "Exiting...";;
                   sys_exit None
               else mret (config args));
  docRoot ← (if decide (directory args ≠ getcwd) then
               if isdir (directory args) then mret (directory args)
               else
                 print ("ERROR! Specified output directory "
                        +:+ directory args +:+ " does not exist!");;
                 print "Exiting...";;
                 sys_exit None
             else mret (directory args));
  let resultsFile := path_join docRoot (output args) in
  let myDomains := path_join configDir "mydomains.csv" in
  let knownDomains := path_join configDir "knowndomains.csv" in
  checkPerms docRoot resultsFile;;
  checkDepends myDomains knownDomains (urlcrazy args) (dnstwist args);;
  doCleanup docRoot;;
  atexit_register docRoot;;
  doCrazy docRoot resultsFile myDomains (urlcrazy args) (dnstwist args);;
  parseOutput docRoot knownDomains resultsFile (urlcrazy args) (dnstwist args);;
  if email args then sendMail resultsFile else mret tt.

(** The functions registered with [atexit] run when the interpreter
    exits, the last registered first; an exception in one of them is
    reported and the next one still runs. *)
Fixpoint run_exitfuncs (funcs : list string) (w : world) : world :=
  match funcs with
  | [] => w
  | docRoot :: funcs' => run_exitfuncs funcs' (doCleanup docRoot w).2
  end.

(** A run of the script that ends with the interpreter exiting: [main]
    from the initial state, then the exit functions, whether [main]
    returned, called [sys.exit] or ended with an exception.  A process that
    a signal kills does not get here: see [killed_run] below. *)
Definition run (argc : nat) (args : arguments)
    (fs0 : gmap string (list string)) : result unit * world :=
  let '(r, w) := main argc args (initial fs0) in
  (r, run_exitfuncs (exitfuncs w) w).

(** The exit status of the process. *)
Definition exit_status (r : result unit) : Z :=
  match r with
  | Ok _ => 0
  | Raise (SystemExit None) => 0
  | Raise (SystemExit (Some n)) => n
  | Raise _ => 1
  end.
End script.

(** ** A process that is killed by a signal

    The script installs no signal handler, so a signal such as SIGTERM or
    SIGKILL ends the process where it is: no further statement runs and the
    functions registered with [atexit] are not called.  The state the
    process leaves is then the state of [main] at that point.  The points
    taken here are the ones after registration at which the embedding has a
    state: [doCrazy] has handled the first [n] lines of mydomains.csv (for
    [n] at least the number of lines this is also the state during the
    reading phase of [parseOutput], which changes nothing before it opens
    the results file). *)

Section killed.
Context `{Platform}.

(** [main] from its first statement to [atexit.register]; the value is the
    tuple of [docRoot], [resultsFile], [myDomains] and [knownDomains]. *)
Definition startup (argc : nat) (args : arguments)
  : M (string * string * string * string) :=
  (if decide (argc = 1) then print usage;; sys_exit (Some 1%Z) else mret tt);;
  configDir ← (if decide (config args ≠ getcwd) then
                 if isdir (config args) then mret (config args)
                 else
                   print ("ERROR! Specified configuration directory "
                          +:+ config args +:+ " does not exist!");;
                   print "Exiting...";;
                   sys_exit None
               else mret (config args));
  docRoot ← (if decide (directory args ≠ getcwd) then
               if isdir (directory args) then mret (directory args)
               else
                 print ("ERROR! Specified output directory "
                        +:+ directory args +:+ " does not exist!");;
                 print "Exiting...";;
                 sys_exit None
             else mret (directory args));
  let resultsFile := path_join docRoot (output args) in
  let myDomains := path_join configDir "mydomains.csv" in
  let knownDomains := path_join configDir "knowndomains.csv" in
  checkPerms docRoot resultsFile;;
  checkDepends myDomains knownDomains (urlcrazy args) (dnstwist args);;
  doCleanup docRoot;;
  atexit_register docRoot;;
  mret (docRoot, resultsFile, myDomains, knownDomains).

(** [doCrazy] when its loop has handled the first [n] lines. *)
Definition doCrazy_lines (docRoot resultsFile myDomains : string)
    (urlcrazy dnstwist : bool) (n : nat) : M unit :=
  try_except (os_remove resultsFile) (only OSError) (λ _, mret tt);;
  domains ← open_read myDomains;
  for_each (take n domains) (doCrazy_domain docRoot urlcrazy dnstwist).

(** [main] up to the point at which the process is killed. *)
Definition main_lines (n : nat) (argc : nat) (args : arguments) : M unit :=
  paths ← startup argc args;
  doCrazy_lines paths.1.1.1 paths.1.1.2 paths.1.2
    (urlcrazy args) (dnstwist args) n.

(** The state a process leaves that is killed by a signal when [doCrazy]
    has handled [n] lines: no exit function has run. *)
Definition killed_run (n : nat) (argc : nat) (args : arguments)
    (fs0 : gmap string (list string)) : world :=
  (main_lines n argc args (initial fs0)).2.
End killed.

(** ** A platform for the examples

    A reader and a writer for CSV text without quote characters: a line is
    cut at its commas, an empty line is the empty record, and a line with a
    null byte makes the reader fail, as [csv.reader] of Python 2 does
    ("line contains NULL byte"). *)

Fixpoint split_fields (s : string) : list string :=
  match s with
  | EmptyString => [EmptyString]
  | String c s' =>
      if Ascii.eqb c ","%char then EmptyString :: split_fields s'
      else match split_fields s' with
           | f :: fields => String c f :: fields
           | [] => [String c EmptyString]
           end
  end.

Definition plain_record (line : string) : list string :=
  match line with
  | EmptyString => []
  | _ => split_fields line
  end.

Fixpoint has_nul (s : string) : bool :=
  match s with
  | EmptyString => false
  | String c s' => Ascii.eqb c Ascii.zero || has_nul s'
  end.

Fixpoint plain_reader (lines : list string) : reader :=
  match lines with
  | [] => Reader [] false
  | line :: lines' =>
      if has_nul line then Reader [] true
      else let r := plain_reader lines' in
           Reader (plain_record line :: records r) (broken r)
  end.

Definition plain_field (v : pyval) : string :=
  match v with
  | PNone => EmptyString
  | PStr s => s
  end.

Fixpoint join_fields (fields : list string) : string :=
  match fields with
  | [] => EmptyString
  | [f] => f
  | f :: fields' => f +:+ "," +:+ join_fields fields'
  end.

Definition quote_mark : string := String (ascii_of_nat 34) EmptyString.

(** A record of one empty field is written as a pair of quote marks. *)
Definition plain_writerow (row : list pyval) : string :=
  match plain_field <$> row with
  | [EmptyString] => quote_mark +:+ quote_mark
  | fields => join_fields fields
  end.

(** The platform of the examples: every directory is accessible and
    writable, the current directory is [/work], the mail server accepts
    every message, and [proc] says what the generator programs do. *)
Definition example_platform
    (proc : list string → gmap string (list string) → process_result)
  : Platform :=
  {| csv_reader := plain_reader;
     csv_writerow := plain_writerow;
     run_process := proc;
     access_X_OK := λ _, true;
     tempfile_ok := λ _, true;
     creatable := λ _, true;
     isdir := λ _, true;
     getcwd := "/work";
     smtp_send := λ _, None |}.

(** The configuration files and the two generator programs. *)
Definition example_config : gmap string (list string) :=
  <["/work/mydomains.csv" := ["example.com"]]>
  (<["/work/knowndomains.csv" := ["Domain,Reason"; "examp1e.com,Squatter"]]>
  (<[urlcrazyPath := []]>
  (<[dnstwistPath := []]> ∅))).

Definition example_args (uc dt : bool) : arguments :=
  Namespace "/work" "results.csv" "/work" false dt uc.

Definition urlcrazy_output : list string :=
  ["Typo Type,Typo,DNS-A,CC-A,DNS-MX,Extn";
   "Character Omission,exmple.com,1.2.3.4,US,,com";
   "Homoglyphs,examp1e.com,5.6.7.8,US,,com";
   "Character Swap,examlpe.com,,?,,com"].

(** urlcrazy writes its file; dnstwist exits with status 1 and no output. *)
Definition dnstwist_fails (argv : list string) (files : gmap string (list string))
  : process_result :=
  match argv with
  | [_; "-f"; "csv"; "-o"; out; _] => Exited 0 [] (<[out := urlcrazy_output]> files)
  | _ => Exited 1 [] files
  end.

Definition example_os : Platform := example_platform dnstwist_fails.

(** What dnstwist prints for example.com when it works. *)
Definition dnstwist_output : list string :=
  ["Fuzzer,Domain,A,AAAA,MX,NS";
   "Original*,example.com,93.184.216.34,,,";
   "Bitsquatting,dxample.com,1.2.3.4,,,";
   "Homoglyph,examp1e.com,5.6.7.8,,,"].

(** Both generators work. *)
Definition generators_work (argv : list string)
    (files : gmap string (list string)) : process_result :=
  match argv with
  | [_; "-f"; "csv"; "-o"; out; _] => Exited 0 [] (<[out := urlcrazy_output]> files)
  | _ => Exited 0 dnstwist_output files
  end.

(** dnstwist runs, prints nothing and exits with status 0. *)
Definition dnstwist_silent (argv : list string)
    (files : gmap string (list string)) : process_result :=
  match argv with
  | [_; "-f"; "csv"; "-o"; out; _] => Exited 0 [] (<[out := urlcrazy_output]> files)
  | _ => Exited 0 [] files
  end.

(** urlcrazy cannot be started; dnstwist works. *)
Definition urlcrazy_fails (argv : list string)
    (files : gmap string (list string)) : process_result :=
  match argv with
  | [_; "-f"; "csv"; "-o"; _; _] => NotStarted
  | _ => Exited 0 dnstwist_output files
  end.

(** A urlcrazy file that an earlier run for old.com left in the output
    directory. *)
Definition stale_output : list string :=
  ["Typo Type,Typo,DNS-A,CC-A,DNS-MX,Extn";
   "Character Omission,od.com,9.9.9.9,US,,com"].

Definition stale_directory : gmap string (list string) :=
  <["/work/old.com.uctmp" := stale_output]> example_config.

(** The output directory when [parseOutput] starts: the files of the two
    generators for example.com and the file left by the earlier run. *)
Definition parse_directory : gmap string (list string) :=
  <["/work/example.com.uctmp" := urlcrazy_output]>
  (<["/work/example.com.dttmp" := dnstwist_output]> stale_directory).

(** A dnstwist file and a urlcrazy file with an empty line among their
    rows. *)
Definition empty_line_dnstwist : gmap string (list string) :=
  <["/work/example.com.dttmp" :=
      ["Fuzzer,Domain,A,AAAA,MX,NS";
       "Original*,example.com,93.184.216.34,,,";
       EmptyString;
       "Bitsquatting,dxample.com,1.2.3.4,,,"]]> example_config.

Definition empty_line_urlcrazy : gmap string (list string) :=
  <["/work/example.com.uctmp" :=
      ["Typo Type,Typo,DNS-A,CC-A,DNS-MX,Extn";
       EmptyString;
       "Character Omission,exmple.com,1.2.3.4,US,,com"]]> example_config.

(** A line with a null byte, in a dnstwist file and in a urlcrazy file. *)
Definition nul_line : string :=
  "Bitsquatting,dxam" +:+ String Ascii.zero "ple.com,1.2.3.4,US,,com".

Definition nul_dnstwist : gmap string (list string) :=
  <["/work/example.com.dttmp" :=
      ["Fuzzer,Domain,A,AAAA,MX,NS";
       "Original*,example.com,93.184.216.34,,,";
       nul_line]]> example_config.

Definition nul_urlcrazy : gmap string (list string) :=
  <["/work/example.com.uctmp" :=
      ["Typo Type,Typo,DNS-A,CC-A,DNS-MX,Extn"; nul_line]]> example_config.

(** A platform on which /work is the only directory. *)
Definition strict_os : Platform :=
  {| csv_reader := plain_reader;
     csv_writerow := plain_writerow;
     run_process := dnstwist_fails;
     access_X_OK := λ _, true;
     tempfile_ok := λ _, true;
     creatable := λ _, true;
     isdir := λ d, String.eqb d "/work";
     getcwd := "/work";
     smtp_send := λ _, None |}.

(** ** Auxiliary predicates *)

(** A loop body only appends to the list it is given, and what it appends
    satisfies [P]. *)
Definition appends {R : Type} (P : pyval → Prop)
    (body : list pyval → R → result (list pyval)) : Prop :=
  ∀ s x s', body s x = Ok s' → ∃ new, s' = s ++ new ∧ Forall P new.

(** A computation leaves a component of the state as it found it, however
    it ends. *)
Definition preserves {A X : Type} (proj : world → X) (m : M A) : Prop :=
  ∀ w, proj (m w).2 = proj w.

(** The registry of temporary files together with the exit functions. *)
Definition registry (w : world) : list string * list string :=
  (tempFiles w, exitfuncs w).

(** The state after the two lines of a diagnostic were printed. *)
Definition diagnosed (w w' : world) : Prop :=
  ∃ line1 line2,
    w' = World (fs w) ((stdout w ++ [line1]) ++ [line2]) (tempFiles w)
               (exitfuncs w) (subprocesses w) (outbox w).

(** The environment errors: the output directory cannot be entered or
    written to, mydomains.csv or knowndomains.csv is missing, or the program
    of an enabled generator is missing. *)
Definition environment_error `{Platform} (args : arguments)
    (fs0 : gmap string (list string)) : Prop :=
  access_X_OK (directory args) = false
  ∨ tempfile_ok (directory args) = false
  ∨ fs0 !! path_join (config args) "mydomains.csv" = None
  ∨ fs0 !! path_join (config args) "knowndomains.csv" = None
  ∨ (urlcrazy args = true ∧ fs0 !! urlcrazyPath = None)
  ∨ (dnstwist args = true ∧ fs0 !! dnstwistPath = None).

(** ** What the generators are asked and what their files report *)

Section reports.
Context `{Platform}.

(** The argument vectors [doCrazy] builds for a line of mydomains.csv. *)
Definition ucargs_of (docRoot domain : string) : list string :=
  [urlcrazyPath; "-f"; "csv"; "-o";
   path_join docRoot (rstrip domain +:+ ".uctmp"); rstrip domain].

Definition dtargs_of (domain : string) : list string :=
  [dnstwistPath; "-r"; "-c"; rstrip domain].

(** The subprocesses [doCrazy] starts for a line: urlcrazy when it is
    enabled, then dnstwist when it is enabled and its output file could be
    opened. *)
Definition invocations (docRoot : string) (uc dt : bool) (domain : string)
  : list (list string) :=
  (if uc then [ucargs_of docRoot domain] else [])
  ++ (if dt && creatable (path_join docRoot (rstrip domain +:+ ".dttmp"))
      then [dtargs_of domain] else []).

(** A path with one of the two suffixes of the intermediate files. *)
Definition temp_suffix (path : string) : bool :=
  endswith path ".uctmp" || endswith path ".dttmp".

(** [d] is the Typo of a row of the urlcrazy file whose CC-A is not "?",
    and is not in the ledger. *)
Definition urlcrazy_reports (knowndom : list pyval) (csvfile : list string)
    (d : pyval) : Prop :=
  ∃ row cc,
    row ∈ (DictReader (csv_reader (replace_nul <$> csvfile))).1
    ∧ getitem row "CC-A" = Ok cc ∧ cc ≠ PStr "?"
    ∧ getitem row "Typo" = Ok d ∧ d ∉ knowndom.

(** [d] is the second field of a record of the dnstwist file after its
    first two records, and is not in the ledger. *)
Definition dnstwist_reports (knowndom : list pyval) (csvfile : list string)
    (d : pyval) : Prop :=
  ∃ row name,
    row ∈ drop 2 (records (csv_reader csvfile))
    ∧ row !! 1 = Some name ∧ d = PStr name ∧ d ∉ knowndom.

(** [d] is reported by a file of the directory [docRoot] whose name ends in
    [suffix]. *)
Definition reported_in (files : gmap string (list string))
    (docRoot suffix : string) (reports : list string → pyval → Prop)
    (d : pyval) : Prop :=
  ∃ f csvfile,
    entry_name f = true ∧ endswith f suffix = true
    ∧ files !! path_join docRoot f = Some csvfile
    ∧ reports csvfile d.

(** The two texts of the report mail. *)
Definition no_results_text : string :=
  "There were no new results in today's scan".
Definition results_text : string :=
  "The results from today's DNS typosquatting scan are attached".
Definition report_subject : string :=
  "Daily DNS typosquatting recon report".
End reports.

(** A computation keeps a property of the state, however it ends. *)
Definition keeps {A : Type} (I : world → Prop) (m : M A) : Prop :=
  ∀ w, I w → I (m w).2.

(** * Properties *)

(** ** The deduplicator *)

Section dedup_facts.
Context {A K : Type} `{Countable K}.
Variable idfun : A → K.

#[local] Notation "'dedup_loop'" := (dedup_loop idfun).
#[local] Notation "'dedup_with'" := (dedup_with idfun).
#[local] Notation "'dedup_step'" := (dedup_step idfun).

Lemma dedup_loop_snoc l x :
  dedup_loop (l ++ [x]) = dedup_step (dedup_loop l) x.
Proof. unfold dedup_loop. by rewrite foldl_app. Qed.

(** The keys of [seen] are the markers of the items read so far. *)
Lemma dedup_loop_seen l k :
  is_Some ((dedup_loop l).1 !! k) ↔ k ∈ idfun <$> l.
Proof.
  induction l as [|x l IH] using rev_ind.
  - cbn. rewrite lookup_empty. split; [by intros [? ?] | by intros ?%elem_of_nil].
  - rewrite dedup_loop_snoc, fmap_app, elem_of_app. cbn.
    rewrite list_elem_of_singleton. unfold dedup_step.
    destruct ((dedup_loop l).1 !! idfun x) as [n|] eqn:E; cbn.
    + rewrite IH. split; [tauto|]. intros [?| ->]; [done|].
      apply IH. by exists n.
    + rewrite lookup_insert. case_decide as Hk; subst.
      * split; [by right | by eexists].
      * rewrite IH. split; [tauto | intros [?|?]; [done | congruence]].
Qed.

Lemma dedup_with_nil : dedup_with [] = [].
Proof. reflexivity. Qed.

Lemma dedup_with_snoc l x :
  dedup_with (l ++ [x]) =
  if decide (idfun x ∈ idfun <$> l) then dedup_with l else dedup_with l ++ [x].
Proof.
  unfold dedup_with. rewrite dedup_loop_snoc. unfold dedup_step.
  pose proof (dedup_loop_seen l (idfun x)) as Hs.
  destruct ((dedup_loop l).1 !! idfun x) as [n|] eqn:E.
  - rewrite decide_True; [done|]. apply Hs. by exists n.
  - rewrite decide_False; [done|]. intros Hin. apply Hs in Hin.
    by destruct Hin.
Qed.

Lemma dedup_with_markers l k :
  k ∈ idfun <$> dedup_with l ↔ k ∈ idfun <$> l.
Proof.
  induction l as [|x l IH] using rev_ind; [done|].
  rewrite dedup_with_snoc. case_decide as Hx.
  - rewrite IH, fmap_app, elem_of_app. cbn. rewrite list_elem_of_singleton.
    split; [tauto | intros [?| ->]; done].
  - rewrite !fmap_app, !elem_of_app, IH. done.
Qed.

Lemma dedup_with_NoDup l : NoDup (idfun <$> dedup_with l).
Proof.
  induction l as [|x l IH] using rev_ind; [constructor|].
  rewrite dedup_with_snoc. case_decide as Hx; [done|].
  rewrite fmap_app. apply NoDup_app. split; [done|]. split.
  - intros k Hk [->|[]%elem_of_nil]%elem_of_cons.
    by apply Hx, dedup_with_markers.
  - apply NoDup_singleton.
Qed.

Lemma dedup_with_sublist l : dedup_with l `sublist_of` l.
Proof.
  induction l as [|x l IH] using rev_ind; [done|].
  rewrite dedup_with_snoc. case_decide.
  - by apply sublist_inserts_r.
  - by apply sublist_app.
Qed.

Lemma dedup_with_idemp l : dedup_with (dedup_with l) = dedup_with l.
Proof.
  induction l as [|x l IH] using rev_ind; [done|].
  rewrite dedup_with_snoc. case_decide as Hx; [done|].
  rewrite dedup_with_snoc, IH, decide_False; [done|].
  by rewrite dedup_with_markers.
Qed.
End dedup_facts.

Section dedup_default.
Context {A : Type} `{Countable A}.
Implicit Types l : list A.

Lemma dedup_snoc l x :
  dedup (l ++ [x]) = if decide (x ∈ l) then dedup l else dedup l ++ [x].
Proof.
  unfold dedup. rewrite dedup_with_snoc, list_fmap_id.
  destruct (decide (id x ∈ l)), (decide (x ∈ l)); done.
Qed.

Lemma elem_of_dedup l x : x ∈ dedup l ↔ x ∈ l.
Proof.
  pose proof (dedup_with_markers id l x) as Hm.
  by rewrite !list_fmap_id in Hm.
Qed.

Lemma NoDup_dedup l : NoDup (dedup l).
Proof.
  pose proof (dedup_with_NoDup id l) as Hn. by rewrite list_fmap_id in Hn.
Qed.

Lemma omap_agree {B C : Type} (f g : B → option C) (xs : list B) :
  (∀ x, x ∈ xs → f x = g x) → omap f xs = omap g xs.
Proof.
  induction xs as [|x xs IH]; intros Hfg; [done|]. cbn.
  rewrite (Hfg x) by apply list_elem_of_here.
  rewrite IH; [done|]. intros y Hy. apply Hfg. by apply list_elem_of_further.
Qed.

Lemma first_occurrences_snoc l x :
  first_occurrences (l ++ [x]) =
  first_occurrences l ++ (if decide (x ∈ l) then [] else [x]).
Proof.
  unfold first_occurrences.
  rewrite length_app, Nat.add_1_r, seq_S, omap_app. cbn [omap].
  f_equal.
  - apply omap_agree. intros i Hi%elem_of_seq.
    rewrite lookup_app_l by lia. rewrite take_app_le by lia. done.
  - cbn. rewrite list_lookup_middle by done. cbn.
    rewrite take_app_length. by destruct (decide (x ∈ l)).
Qed.

Lemma dedup_first_occurrences l : dedup l = first_occurrences l.
Proof.
  induction l as [|x l IH] using rev_ind; [done|].
  rewrite dedup_snoc, first_occurrences_snoc, IH.
  destruct (decide (x ∈ l)); [by rewrite app_nil_r | done].
Qed.
End dedup_default.

(** C7. The deduplicator returns the subsequence of first occurrences: the
    element at an index is kept exactly when it does not occur before that
    index, the kept elements are in the order of the input, no element is
    kept twice and no element of the input is lost; the empty list gives
    the empty list, and [a, b, a, c, b] gives [a, b, c]. *)
Theorem dedup_keeps_first_occurrences {A : Type} `{Countable A} (l : list A) :
  dedup l = first_occurrences l
  ∧ (dedup ([] : list A) = [])
  ∧ (∀ x, dedup (l ++ [x]) = if decide (x ∈ l) then dedup l else dedup l ++ [x])
  ∧ dedup l `sublist_of` l
  ∧ NoDup (dedup l)
  ∧ (∀ x, x ∈ dedup l ↔ x ∈ l)
  ∧ dedup ["a"; "b"; "a"; "c"; "b"] = ["a"; "b"; "c"]
  ∧ dedup [PStr "a"; PStr "b"; PStr "a"; PStr "c"; PStr "b"]
    = [PStr "a"; PStr "b"; PStr "c"].
Proof.
  split_and!.
  - apply dedup_first_occurrences.
  - reflexivity.
  - intros x. apply dedup_snoc.
  - apply dedup_with_sublist.
  - apply NoDup_dedup.
  - intros x. apply elem_of_dedup.
  - reflexivity.
  - reflexivity.
Qed.

(** C9. The deduplicator is idempotent: deduplicating its own output gives
    that output again. *)
Theorem dedup_idempotent {A : Type} `{Countable A} (l : list A) :
  dedup (dedup l) = dedup l.
Proof. apply dedup_with_idemp. Qed.

(** ** Lines and their terminators *)

(** [rstrip] gives the same string on a line with and without its
    newline, so iterating over the lines without terminators is the
    iteration of [for domain in domains] in [doCrazy]. *)
Lemma rstrip_newline (s : string) :
  rstrip (s +:+ String (ascii_of_nat 10) EmptyString) = rstrip s.
Proof.
  induction s as [|c s IH]; [reflexivity|].
  change (String c s +:+ String (ascii_of_nat 10) EmptyString)
    with (String c (s +:+ String (ascii_of_nat 10) EmptyString)).
  cbn [rstrip]. by rewrite IH.
Qed.

(** ** The monad and the loops *)

Lemma bind_run {A B : Type} (m : M A) (f : A → M B) (w : world) :
  (m ≫= f) w =
  match m w with
  | (Ok a, w') => f a w'
  | (Raise e, w') => (Raise e, w')
  end.
Proof. reflexivity. Qed.

Lemma bind_ok {A B : Type} (m : M A) (f : A → M B) (w w' : world) (a : A) :
  m w = (Ok a, w') → (m ≫= f) w = f a w'.
Proof. intros Hm. by rewrite bind_run, Hm. Qed.

Lemma bind_raise {A B : Type} (m : M A) (f : A → M B) (w w' : world) (e : exn) :
  m w = (Raise e, w') → (m ≫= f) w = (Raise e, w').
Proof. intros Hm. by rewrite bind_run, Hm. Qed.

Lemma set_fs_id (w : world) : set_fs (λ files, files) w = w.
Proof. by destruct w. Qed.

Lemma set_fs_set_fs f g (w : world) :
  set_fs f (set_fs g w) = set_fs (λ files, f (g files)) w.
Proof. reflexivity. Qed.

Lemma set_fs_same f (w : world) : f (fs w) = fs w → set_fs f w = w.
Proof. destruct w. unfold set_fs. cbn. by intros ->. Qed.

(** A loop of reads leaves the state as it is; its value is the fold over
    the files found in the file system. *)
Lemma for_fold_read {S : Type} (parse : S → list string → result S)
    (paths : list string) (s : S) (w : world) :
  for_fold paths s (λ s file, csvfile ← open_read file; lift (parse s csvfile)) w
  = (fold_result paths s (λ s file,
       match fs w !! file with
       | Some csvfile => parse s csvfile
       | None => Raise IOError
       end), w).
Proof.
  revert s. induction paths as [|file paths IH]; intros s; [done|].
  cbn [for_fold fold_result]. rewrite bind_run.
  unfold open_read at 1. rewrite bind_run. unfold lift at 1.
  destruct (fs w !! file) as [csvfile|]; [|done].
  destruct (parse s csvfile) as [s'|e]; [apply IH | done].
Qed.

(** ** The result writer *)

Section writer_facts.
Context `{Platform}.

Lemma for_each_file_write (f : string) (domains : list pyval) (w : world)
    (cur : list string) :
  fs w !! f = Some cur →
  for_each domains (λ row, file_write f [csv_writerow [row]]) w
  = (Ok tt, set_fs <[f := cur ++ ((λ row, csv_writerow [row]) <$> domains)]> w).
Proof.
  revert w cur. induction domains as [|d domains IH]; intros w cur Hcur.
  - cbn. rewrite app_nil_r, set_fs_same; [done|]. by apply insert_id.
  - cbn [for_each]. rewrite bind_run. unfold file_write at 1.
    erewrite IH; last first.
    { cbn. rewrite lookup_alter_eq, Hcur. done. }
    rewrite set_fs_set_fs. f_equal. unfold set_fs. f_equal.
    rewrite insert_alter_eq. by rewrite <- app_assoc.
Qed.

Lemma write_results_run (resultsFile : string) (domains : list pyval) (w : world) :
  write_results resultsFile domains w =
  if creatable resultsFile
  then (Ok tt, set_fs <[resultsFile := artifact domains]> w)
  else (Raise IOError, w).
Proof.
  unfold write_results. rewrite bind_run. unfold open_write.
  destruct (creatable resultsFile); [|done].
  rewrite bind_run. unfold file_write at 1.
  erewrite for_each_file_write; last first.
  { cbn. rewrite lookup_alter_eq, lookup_insert_eq. done. }
  rewrite !set_fs_set_fs. f_equal. unfold set_fs. f_equal.
  rewrite insert_alter_eq, insert_insert_eq. done.
Qed.
End writer_facts.

(** C8. The result writer first writes the header row that names the
    single column Domain and then one row for every candidate, in the order
    of the list it is given: the file has one row for the empty list and
    1 + N rows for N candidates.  The list [parseOutput] gives to the writer
    is the deduplicated list. *)
Theorem write_results_rows `{Platform} (resultsFile : string)
    (domains : list pyval) (w : world) :
  creatable resultsFile = true →
  (write_results resultsFile domains w).1 = Ok tt
  ∧ fs (write_results resultsFile domains w).2 !! resultsFile
    = Some (csv_writerow [PStr "Domain"]
            :: ((λ row, csv_writerow [row]) <$> domains))
  ∧ (∀ rows, fs (write_results resultsFile domains w).2 !! resultsFile = Some rows →
       length rows = 1 + length domains)
  ∧ fs (write_results resultsFile [] w).2 !! resultsFile
    = Some [csv_writerow [PStr "Domain"]]
  ∧ (∀ docRoot knownDomains uc dt,
       parseOutput docRoot knownDomains resultsFile uc dt w
       = (collect docRoot knownDomains uc dt
          ≫= λ collected, write_results resultsFile (dedup collected)) w).
Proof.
  intros Hc. rewrite !write_results_run, Hc. cbn.
  rewrite !lookup_insert_eq. split_and!; try done.
  intros rows [= <-]. unfold artifact. cbn. by rewrite length_fmap.
Qed.

(** ** Loops that append to the candidate list *)

Section fold_facts.
Context {R : Type} (P : pyval → Prop).
Implicit Types body : list pyval → R → result (list pyval).

Lemma fold_result_appends body rows s s' :
  appends P body → fold_result rows s body = Ok s' →
  ∃ new, s' = s ++ new ∧ Forall P new.
Proof.
  intros Hb. revert s. induction rows as [|x rows IH]; intros s Hf; cbn in Hf.
  - injection Hf as <-. exists []. by rewrite app_nil_r.
  - destruct (body s x) as [s1|e] eqn:E; [|done].
    destruct (Hb _ _ _ E) as (new1 & -> & Hn1).
    destruct (IH _ Hf) as (new2 & -> & Hn2).
    exists (new1 ++ new2). split; [by rewrite app_assoc | by apply Forall_app].
Qed.

Lemma iterate_ok body rows bad s s' :
  iterate rows bad s body = Ok s' → fold_result rows s body = Ok s'.
Proof.
  unfold iterate. destruct (fold_result rows s body) as [s1|e]; cbn; [|done].
  by destruct bad.
Qed.

Lemma iterate_appends body rows bad :
  appends P body → appends P (λ s (_ : unit), iterate rows bad s body).
Proof. intros Hb s _ s' Hi%iterate_ok. by eapply fold_result_appends. Qed.

(** When the loop ends normally, what the body appended for a row is still
    in the list at the end. *)
Lemma fold_result_reaches body rows s s' x d :
  appends P body → x ∈ rows →
  (∀ s0 s1, body s0 x = Ok s1 → d ∈ s1) →
  fold_result rows s body = Ok s' → d ∈ s'.
Proof.
  intros Hb Hx Hd. revert s.
  induction rows as [|y rows IH]; intros s Hf; [by apply elem_of_nil in Hx|].
  cbn in Hf. destruct (body s y) as [s1|e] eqn:E; [|done].
  apply elem_of_cons in Hx as [->|Hx]; [|by eapply IH].
  destruct (fold_result_appends _ _ _ _ Hb Hf) as (new & -> & _).
  apply elem_of_app. left. by eapply Hd.
Qed.
End fold_facts.

Section parse_facts.
Context `{Platform}.
Variable knowndom : list pyval.

#[local] Notation "'fresh'" := (λ d : pyval, d ∉ knowndom).

Lemma getitem_dict_len row key v : getitem row key = Ok v → dict_len row ≠ 0.
Proof.
  unfold getitem, dict_len. destruct (named row !! key) as [v'|] eqn:E; [|done].
  intros _ Hz. assert (size (named row) = 0) as Hs by lia.
  apply map_size_empty_inv in Hs. by rewrite Hs, lookup_empty in E.
Qed.

Lemma urlcrazy_row_appends : appends fresh (urlcrazy_row knowndom).
Proof.
  intros s row s'. unfold urlcrazy_row.
  assert (Ok s = Ok s' → ∃ new, s' = s ++ new ∧ Forall fresh new) as Hsame.
  { intros [= <-]. exists []. by rewrite app_nil_r. }
  case_decide; [|done].
  destruct (getitem row "CC-A") as [cc|]; cbn; [|done].
  case_decide; [|done].
  destruct (getitem row "Typo") as [typo|]; cbn; [|done].
  case_decide; [done|]. intros [= <-]. exists [typo]. split; [done|].
  by apply Forall_singleton.
Qed.

Lemma urlcrazy_row_reaches row cc typo s s' :
  getitem row "CC-A" = Ok cc → cc ≠ PStr "?" →
  getitem row "Typo" = Ok typo → typo ∉ knowndom →
  urlcrazy_row knowndom s row = Ok s' → typo ∈ s'.
Proof.
  intros Hcc Hne Htypo Hfresh. unfold urlcrazy_row.
  rewrite decide_True by by eapply getitem_dict_len.
  rewrite Hcc. cbn. rewrite decide_True by done. rewrite Htypo. cbn.
  rewrite decide_False by done. intros [= <-].
  apply elem_of_app. right. apply list_elem_of_here.
Qed.

Lemma dnstwist_row_appends : appends fresh (dnstwist_row knowndom).
Proof.
  intros s row s'. unfold dnstwist_row.
  destruct (row !! 1) as [d|]; [|done].
  case_decide.
  - intros [= <-]. exists []. by rewrite app_nil_r.
  - intros [= <-]. exists [PStr d]. split; [done|]. by apply Forall_singleton.
Qed.

Lemma dnstwist_row_reaches row d s s' :
  row !! 1 = Some d → PStr d ∉ knowndom →
  dnstwist_row knowndom s row = Ok s' → PStr d ∈ s'.
Proof.
  intros Hd Hfresh. unfold dnstwist_row. rewrite Hd, decide_False by done.
  intros [= <-]. apply elem_of_app. right. apply list_elem_of_here.
Qed.

Lemma parse_urlcrazy_appends : appends fresh (parse_urlcrazy knowndom).
Proof.
  intros s csvfile s'. unfold parse_urlcrazy.
  destruct (DictReader _) as [rows bad]. intros Hi%iterate_ok.
  eapply fold_result_appends; [apply urlcrazy_row_appends | done].
Qed.

Lemma parse_urlcrazy_reaches csvfile row cc typo s s' :
  row ∈ (DictReader (csv_reader (replace_nul <$> csvfile))).1 →
  getitem row "CC-A" = Ok cc → cc ≠ PStr "?" →
  getitem row "Typo" = Ok typo → typo ∉ knowndom →
  parse_urlcrazy knowndom s csvfile = Ok s' → typo ∈ s'.
Proof.
  intros Hrow Hcc Hne Htypo Hfresh. unfold parse_urlcrazy.
  destruct (DictReader _) as [rows bad]. intros Hi%iterate_ok.
  eapply fold_result_reaches; [apply urlcrazy_row_appends | exact Hrow | | done].
  intros s0 s1. by eapply urlcrazy_row_reaches.
Qed.

Lemma parse_dnstwist_appends : appends fresh (parse_dnstwist knowndom).
Proof.
  intros s csvfile s'. unfold parse_dnstwist.
  destruct (records (csv_reader csvfile)) as [|? [|? rows]]; [done..|].
  intros Hi%iterate_ok.
  eapply fold_result_appends; [apply dnstwist_row_appends | done].
Qed.

Lemma parse_dnstwist_reaches csvfile row d s s' :
  row ∈ drop 2 (records (csv_reader csvfile)) →
  row !! 1 = Some d → PStr d ∉ knowndom →
  parse_dnstwist knowndom s csvfile = Ok s' → PStr d ∈ s'.
Proof.
  intros Hrow Hd Hfresh. unfold parse_dnstwist.
  destruct (records (csv_reader csvfile)) as [|? [|? rows]]; [done..|].
  cbn in Hrow. intros Hi%iterate_ok.
  eapply fold_result_reaches; [apply dnstwist_row_appends | exact Hrow | | done].
  intros s0 s1. by eapply dnstwist_row_reaches.
Qed.

(** Reading the files of a list one after the other. *)
Lemma read_files_appends (parse : list pyval → list string → result (list pyval))
    (files : gmap string (list string)) :
  appends fresh parse →
  appends fresh (λ s file, match files !! file with
                           | Some csvfile => parse s csvfile
                           | None => Raise IOError
                           end).
Proof.
  intros Hp s file s'. destruct (files !! file); [apply Hp | done].
Qed.
End parse_facts.

(** ** The directory listing *)

Lemma strip_prefix_app (pre f : string) : strip_prefix pre (pre +:+ f) = Some f.
Proof.
  induction pre as [|a pre IH]; [done|]. change (String a pre +:+ f) with (String a (pre +:+ f)). cbn. by rewrite Ascii.eqb_refl.
Qed.

Lemma strip_prefix_Some (pre p f : string) :
  strip_prefix pre p = Some f → p = pre +:+ f.
Proof.
  revert p. induction pre as [|a pre IH]; intros p; cbn.
  - by intros [= ->].
  - destruct p as [|b p]; [done|].
    destruct (Ascii.eqb a b) eqn:E; [|done].
    apply Ascii.eqb_eq in E as ->. intros ->%IH. done.
Qed.

Lemma append_assoc (a b c : string) : (a +:+ b) +:+ c = a +:+ (b +:+ c).
Proof.
  induction a as [|x a IH]; [done|].
  change (String x ((a +:+ b) +:+ c) = String x (a +:+ (b +:+ c))).
  by rewrite IH.
Qed.

Lemma path_join_entry (d f : string) :
  entry_name f = true → path_join d f = dir_prefix d +:+ f.
Proof.
  unfold entry_name, path_join, dir_prefix.
  intros [Hne Hslash]%andb_true_iff.
  destruct f as [|c f]; [done|]. cbn in Hslash.
  apply negb_true_iff, orb_false_iff in Hslash as [Hc _].
  rewrite Ascii.eqb_sym in Hc.
  assert (startswith (String c f) "/" = false) as ->.
  { change (startswith (String c f) "/")
      with (Ascii.eqb "/" c && startswith f EmptyString).
    by rewrite Hc. }
  destruct (String.eqb d EmptyString || endswith d "/"); [done|].
  by rewrite append_assoc.
Qed.

(** The listing of a directory has exactly the names of the files whose
    path is that name joined to the directory. *)
Lemma elem_of_listdir (d f : string) (files : gmap string (list string)) :
  f ∈ listdir d files ↔
  entry_name f = true ∧ is_Some (files !! path_join d f).
Proof.
  unfold listdir. rewrite list_elem_of_omap. split.
  - intros (p & Hp & Hf).
    destruct (strip_prefix (dir_prefix d) p) as [f'|] eqn:E; [|done].
    cbn in Hf. destruct (entry_name f') eqn:En; [|done].
    injection Hf as ->. split; [done|].
    rewrite path_join_entry by done.
    apply strip_prefix_Some in E as <-.
    apply list_elem_of_fmap in Hp as ([p' v] & -> & Hpv).
    apply elem_of_map_to_list in Hpv. by exists v.
  - intros [En [v Hv]]. exists (path_join d f). split.
    + apply list_elem_of_fmap. exists (path_join d f, v). split; [done|].
      by apply elem_of_map_to_list.
    + rewrite path_join_entry by done. rewrite strip_prefix_app. cbn.
      by rewrite En.
Qed.

(** ** The normalizer and the ledger differ *)

Section collect_facts.
Context `{Platform}.

(** The files the normalizer reads for a suffix. *)
Lemma scan_run (docRoot suffix : string) (w : world) :
  scan docRoot suffix w =
  (Ok (path_join docRoot <$>
         filter (λ f, endswith f suffix = true) (listdir docRoot (fs w))), w).
Proof. reflexivity. Qed.

Lemma elem_of_scanned (docRoot suffix f : string) (files : gmap string (list string)) :
  entry_name f = true → is_Some (files !! path_join docRoot f) →
  endswith f suffix = true →
  path_join docRoot f ∈
    path_join docRoot <$>
      filter (λ f, endswith f suffix = true) (listdir docRoot files).
Proof.
  intros En Hf He. apply list_elem_of_fmap_2, list_elem_of_filter.
  split; [done|]. by apply elem_of_listdir.
Qed.

(** [collect] reads and does not change the state; its value is the fold
    of the two parsers over the scanned files. *)
Lemma collect_run (docRoot knownDomains : string) (uc dt : bool) (w : world) :
  collect docRoot knownDomains uc dt w =
  (match fs w !! knownDomains with
   | None => Raise IOError
   | Some domfile =>
       knowndom ← load_knowndom domfile;
       domains ←
         (if uc then
            fold_result
              (path_join docRoot <$>
                 filter (λ f, endswith f ".uctmp" = true) (listdir docRoot (fs w)))
              [] (λ s file, match fs w !! file with
                            | Some csvfile => parse_urlcrazy knowndom s csvfile
                            | None => Raise IOError
                            end)
          else Ok []);
       if dt then
         fold_result
           (path_join docRoot <$>
              filter (λ f, endswith f ".dttmp" = true) (listdir docRoot (fs w)))
           domains (λ s file, match fs w !! file with
                              | Some csvfile => parse_dnstwist knowndom s csvfile
                              | None => Raise IOError
                              end)
       else Ok domains
   end, w).
Proof.
  unfold collect. rewrite bind_run. unfold open_read at 1.
  destruct (fs w !! knownDomains) as [domfile|]; [|done].
  rewrite bind_run. unfold lift at 1.
  destruct (load_knowndom domfile) as [knowndom|e]; [|done]. cbn [mbind result_bind].
  rewrite bind_run.
  destruct uc.
  - rewrite bind_run, scan_run, for_fold_read.
    destruct (fold_result _ _ _) as [domains|e]; [|done].
    destruct dt; [|done]. by rewrite bind_run, scan_run, for_fold_read.
  - cbn. destruct dt; [|done]. by rewrite bind_run, scan_run, for_fold_read.
Qed.

(** [parseOutput] changes nothing but the results file. *)
Lemma parseOutput_run (docRoot knownDomains resultsFile : string)
    (uc dt : bool) (w : world) :
  parseOutput docRoot knownDomains resultsFile uc dt w =
  match (collect docRoot knownDomains uc dt w).1 with
  | Ok domains =>
      if creatable resultsFile
      then (Ok tt, set_fs <[resultsFile := artifact (dedup domains)]> w)
      else (Raise IOError, w)
  | Raise e => (Raise e, w)
  end.
Proof.
  unfold parseOutput. rewrite bind_run.
  pose proof (collect_run docRoot knownDomains uc dt w) as Hc.
  destruct (collect docRoot knownDomains uc dt w) as [r w1].
  injection Hc as _ ->. cbn [fst].
  destruct r as [domains|e]; [apply write_results_run | done].
Qed.

Lemma parseOutput_ok (docRoot knownDomains resultsFile : string)
    (uc dt : bool) (w w' : world) :
  parseOutput docRoot knownDomains resultsFile uc dt w = (Ok tt, w') →
  ∃ domains,
    (collect docRoot knownDomains uc dt w).1 = Ok domains
    ∧ fs w' !! resultsFile = Some (artifact (dedup domains)).
Proof.
  rewrite parseOutput_run.
  destruct (collect docRoot knownDomains uc dt w).1 as [domains|e]; [|done].
  destruct (creatable resultsFile); [|done].
  intros [= <-]. exists domains. split; [done|]. cbn. apply lookup_insert_eq.
Qed.
End collect_facts.

Section parseOutput_facts.
Context `{Platform}.
Implicit Types (docRoot knownDomains resultsFile : string) (uc dt : bool).

(** The two phases of [collect]: the urlcrazy files, then the dnstwist
    files, each read when its generator is enabled. *)
Lemma collect_phases docRoot knownDomains uc dt (w : world)
    (domfile : list string) (knowndom domains : list pyval) :
  (collect docRoot knownDomains uc dt w).1 = Ok domains →
  fs w !! knownDomains = Some domfile →
  load_knowndom domfile = Ok knowndom →
  ∃ ucdomains,
    (if uc then
       fold_result
         (path_join docRoot <$>
            filter (λ f, endswith f ".uctmp" = true) (listdir docRoot (fs w)))
         [] (λ s file, match fs w !! file with
                       | Some csvfile => parse_urlcrazy knowndom s csvfile
                       | None => Raise IOError
                       end)
     else Ok []) = Ok ucdomains
    ∧ (if dt then
         fold_result
           (path_join docRoot <$>
              filter (λ f, endswith f ".dttmp" = true) (listdir docRoot (fs w)))
           ucdomains (λ s file, match fs w !! file with
                                | Some csvfile => parse_dnstwist knowndom s csvfile
                                | None => Raise IOError
                                end)
       else Ok ucdomains) = Ok domains.
Proof.
  rewrite collect_run. cbn [fst]. intros Hc Hk Hl. rewrite Hk, Hl in Hc.
  cbn [mbind result_bind] in Hc.
  destruct (if uc then _ else _) as [ucdomains|e] eqn:Euc; [|done].
  exists ucdomains. split; [done|]. destruct dt; done.
Qed.

(** Every collected candidate is absent from the ledger. *)
Lemma collect_fresh docRoot knownDomains uc dt (w : world)
    (domfile : list string) (knowndom domains : list pyval) :
  (collect docRoot knownDomains uc dt w).1 = Ok domains →
  fs w !! knownDomains = Some domfile →
  load_knowndom domfile = Ok knowndom →
  Forall (λ d, d ∉ knowndom) domains.
Proof.
  intros Hc Hk Hl.
  destruct (collect_phases _ _ _ _ _ _ _ _ Hc Hk Hl) as (ucd & Huc & Hdt).
  assert (Forall (λ d, d ∉ knowndom) ucd) as Hucd.
  { destruct uc; [|by injection Huc as <-].
    eapply fold_result_appends in Huc as (new & -> & Hnew); [done|].
    apply read_files_appends, parse_urlcrazy_appends. }
  destruct dt; [|by injection Hdt as <-].
  eapply fold_result_appends in Hdt as (new & -> & Hnew).
  - by apply Forall_app.
  - apply read_files_appends, parse_dnstwist_appends.
Qed.

(** The candidates a urlcrazy file contributes. *)
Lemma collect_urlcrazy_file docRoot knownDomains dt (w : world)
    (domfile : list string) (knowndom domains : list pyval)
    (f : string) (csvfile : list string) (row : dictrow) (cc typo : pyval) :
  (collect docRoot knownDomains true dt w).1 = Ok domains →
  fs w !! knownDomains = Some domfile →
  load_knowndom domfile = Ok knowndom →
  entry_name f = true → endswith f ".uctmp" = true →
  fs w !! path_join docRoot f = Some csvfile →
  row ∈ (DictReader (csv_reader (replace_nul <$> csvfile))).1 →
  getitem row "CC-A" = Ok cc → cc ≠ PStr "?" →
  getitem row "Typo" = Ok typo → typo ∉ knowndom →
  typo ∈ domains.
Proof.
  intros Hc Hk Hl En Hs Hf Hrow Hcc Hne Htypo Hfresh.
  destruct (collect_phases _ _ _ _ _ _ _ _ Hc Hk Hl) as (ucd & Huc & Hdt).
  assert (typo ∈ ucd) as Hin.
  { eapply fold_result_reaches in Huc; [exact Huc | | | ].
    - apply read_files_appends, parse_urlcrazy_appends.
    - apply elem_of_scanned; [done | by rewrite Hf | done].
    - intros s0 s1. rewrite Hf. by eapply parse_urlcrazy_reaches. }
  destruct dt; [|by injection Hdt as <-].
  eapply fold_result_appends in Hdt as (new & -> & _).
  - apply elem_of_app. by left.
  - apply read_files_appends, parse_dnstwist_appends.
Qed.

(** The candidates a dnstwist file contributes. *)
Lemma collect_dnstwist_file docRoot knownDomains uc (w : world)
    (domfile : list string) (knowndom domains : list pyval)
    (f : string) (csvfile : list string) (row : list string) (d : string) :
  (collect docRoot knownDomains uc true w).1 = Ok domains →
  fs w !! knownDomains = Some domfile →
  load_knowndom domfile = Ok knowndom →
  entry_name f = true → endswith f ".dttmp" = true →
  fs w !! path_join docRoot f = Some csvfile →
  row ∈ drop 2 (records (csv_reader csvfile)) →
  row !! 1 = Some d → PStr d ∉ knowndom →
  PStr d ∈ domains.
Proof.
  intros Hc Hk Hl En Hs Hf Hrow Hd Hfresh.
  destruct (collect_phases _ _ _ _ _ _ _ _ Hc Hk Hl) as (ucd & _ & Hdt).
  eapply fold_result_reaches in Hdt; [exact Hdt | | | ].
  - apply read_files_appends, parse_dnstwist_appends.
  - apply elem_of_scanned; [done | by rewrite Hf | done].
  - intros s0 s1. rewrite Hf. by eapply parse_dnstwist_reaches.
Qed.
End parseOutput_facts.

(** C1. When [parseOutput] has written the results file, the rows after
    the header are the rows of a list of domains in which no domain occurs
    twice and no domain is among the Domain values loaded from
    knowndomains.csv.  A row is identified by the value that is handed to
    [writer.writerow]. *)
Theorem parseOutput_new_and_unique `{Platform}
    (docRoot knownDomains resultsFile : string) (uc dt : bool) (w w' : world)
    (domfile : list string) (knowndom : list pyval) :
  parseOutput docRoot knownDomains resultsFile uc dt w = (Ok tt, w') →
  fs w !! knownDomains = Some domfile →
  load_knowndom domfile = Ok knowndom →
  ∃ domains,
    fs w' !! resultsFile
    = Some (csv_writerow [PStr "Domain"]
            :: ((λ row, csv_writerow [row]) <$> domains))
    ∧ NoDup domains
    ∧ ∀ d, d ∈ domains → d ∉ knowndom.
Proof.
  intros (collected & Hc & Hfile)%parseOutput_ok Hk Hl.
  exists (dedup collected). split_and!; [done | apply NoDup_dedup |].
  intros d Hd. apply (proj1 (elem_of_dedup _ _)) in Hd.
  pose proof (collect_fresh _ _ _ _ _ _ _ _ Hc Hk Hl) as Hfresh.
  rewrite Forall_forall in Hfresh. by apply Hfresh.
Qed.

(** C10. The normalizer reads the files it finds in the output directory:
    when [parseOutput] has written the results file, every file of the
    directory whose name ends in .uctmp (urlcrazy enabled) or in .dttmp
    (dnstwist enabled) was parsed, and each of its rows that qualifies has
    its domain in the results file.  Nothing is asked of [tempFiles]: the
    file may be one that this run did not create or register. *)
Theorem parseOutput_reads_directory `{Platform}
    (docRoot knownDomains resultsFile : string) (uc dt : bool) (w w' : world)
    (domfile : list string) (knowndom : list pyval)
    (f : string) (csvfile : list string) :
  parseOutput docRoot knownDomains resultsFile uc dt w = (Ok tt, w') →
  fs w !! knownDomains = Some domfile →
  load_knowndom domfile = Ok knowndom →
  entry_name f = true →
  fs w !! path_join docRoot f = Some csvfile →
  ∃ domains,
    fs w' !! resultsFile
    = Some (csv_writerow [PStr "Domain"]
            :: ((λ row, csv_writerow [row]) <$> domains))
    ∧ (uc = true → endswith f ".uctmp" = true →
       ∀ row cc typo,
         row ∈ (DictReader (csv_reader (replace_nul <$> csvfile))).1 →
         getitem row "CC-A" = Ok cc → cc ≠ PStr "?" →
         getitem row "Typo" = Ok typo → typo ∉ knowndom →
         typo ∈ domains)
    ∧ (dt = true → endswith f ".dttmp" = true →
       ∀ row d,
         row ∈ drop 2 (records (csv_reader csvfile)) →
         row !! 1 = Some d → PStr d ∉ knowndom →
         PStr d ∈ domains)
    ∧ (∀ registry,
         parseOutput docRoot knownDomains resultsFile uc dt
           (World (fs w) (stdout w) registry (exitfuncs w) (subprocesses w)
                  (outbox w))
         = (Ok tt, World (fs w') (stdout w') registry (exitfuncs w')
                         (subprocesses w') (outbox w'))).
Proof.
  intros Hrun Hk Hl En Hf.
  pose proof Hrun as (collected & Hc & Hfile)%parseOutput_ok.
  exists (dedup collected). split_and!; [done | | |].
  - intros -> Hs row cc typo Hrow Hcc Hne Htypo Hfresh.
    apply elem_of_dedup. by eapply collect_urlcrazy_file.
  - intros -> Hs row d Hrow Hd Hfresh.
    apply elem_of_dedup. by eapply collect_dnstwist_file.
  - intros registry. rewrite parseOutput_run in Hrun |- *.
    assert ((collect docRoot knownDomains uc dt
               (World (fs w) (stdout w) registry (exitfuncs w) (subprocesses w)
                      (outbox w))).1
            = (collect docRoot knownDomains uc dt w).1) as ->
      by (by rewrite !collect_run).
    destruct (collect docRoot knownDomains uc dt w).1 as [ds|e]; [|done].
    destruct (creatable resultsFile); [|done].
    by injection Hrun as <-.
Qed.

(** ** What the functions leave unchanged *)

Section preserves_rules.
Context {X : Type} (proj : world → X).

Lemma preserves_ret {A : Type} (a : A) : preserves proj (mret a).
Proof. by intros w. Qed.

Lemma preserves_raise {A : Type} (e : exn) : preserves proj (raise (A:=A) e).
Proof. by intros w. Qed.

Lemma preserves_lift {A : Type} (r : result A) : preserves proj (lift r).
Proof. by intros w. Qed.

Lemma preserves_bind {A B : Type} (m : M A) (f : A → M B) :
  preserves proj m → (∀ a, preserves proj (f a)) → preserves proj (m ≫= f).
Proof.
  intros Hm Hf w. rewrite bind_run. specialize (Hm w).
  destruct (m w) as [[a|e] w1]; cbn in *; [|done]. by rewrite Hf.
Qed.

Lemma preserves_try_except {A : Type} (body : M A) catches (handler : exn → M A) :
  preserves proj body → (∀ e, preserves proj (handler e)) →
  preserves proj (try_except body catches handler).
Proof.
  intros Hb Hh w. unfold try_except. specialize (Hb w).
  destruct (body w) as [[a|e] w1]; cbn in *; [done|].
  destruct (catches e); [|done]. by rewrite Hh.
Qed.

Lemma preserves_for_each {A : Type} (l : list A) (body : A → M unit) :
  (∀ x, preserves proj (body x)) → preserves proj (for_each l body).
Proof.
  intros Hb. induction l as [|x l IH]; [by intros w|].
  cbn [for_each]. apply preserves_bind; [apply Hb | by intros _].
Qed.

Lemma preserves_for_fold {A S : Type} (l : list A) (s : S) (body : S → A → M S) :
  (∀ s x, preserves proj (body s x)) → preserves proj (for_fold l s body).
Proof.
  intros Hb. revert s. induction l as [|x l IH]; intros s; [by intros w|].
  cbn [for_fold]. apply preserves_bind; [apply Hb | intros s'; apply IH].
Qed.

(** After a computation that preserves [proj], whatever is true of every
    state with the same [proj] is true where the sequence ends. *)
Lemma bind_keep {A B : Type} (m : M A) (f : A → M B) (Q : world → Prop) (w : world) :
  preserves proj m →
  (∀ w1, proj w1 = proj w → Q w1) →
  (∀ a w1, proj w1 = proj w → Q (f a w1).2) →
  Q ((m ≫= f) w).2.
Proof.
  intros Hm Hraise Hok. rewrite bind_run. specialize (Hm w).
  destruct (m w) as [[a|e] w1]; cbn in *; [by apply Hok | by apply Hraise].
Qed.
End preserves_rules.

(** The primitives that change neither [tempFiles] nor the exit
    functions. *)
Ltac preserves_prim :=
  let w := fresh "w" in
  intros w;
  cbv [print get_tempFiles access_F_OK os_remove open_read open_write file_write
       os_listdir subprocess_call subprocess_check_output smtp_deliver
       TemporaryFile sys_exit raise lift mret M_ret record_subprocess set_fs
       registry tempFiles_append];
  repeat case_match; reflexivity.

Ltac preserves_step :=
  lazymatch goal with
  | |- preserves _ (_ ≫= _) => apply preserves_bind; [|intros ?]
  | |- preserves _ (try_except _ _ _) => apply preserves_try_except; [|intros ?]
  | |- preserves _ (for_each _ _) => apply preserves_for_each; intros ?
  | |- preserves _ (for_fold _ _ _) => apply preserves_for_fold; intros ? ?
  | |- preserves _ (if ?b then _ else _) => destruct b
  | |- preserves _ (match ?b with _ => _ end) => destruct b
  | |- preserves _ _ => preserves_prim
  end.

Ltac preserves_auto := repeat preserves_step.

Section frames.
Context `{Platform}.

Lemma checkPerms_registry docRoot resultsFile :
  preserves registry (checkPerms docRoot resultsFile).
Proof. unfold checkPerms. preserves_auto. Qed.

Lemma checkDepends_registry myDomains knownDomains uc dt :
  preserves registry (checkDepends myDomains knownDomains uc dt).
Proof. unfold checkDepends. preserves_auto. Qed.

Lemma doCleanup_registry docRoot : preserves registry (doCleanup docRoot).
Proof. unfold doCleanup. preserves_auto. Qed.

Lemma doCrazy_exitfuncs docRoot resultsFile myDomains uc dt :
  preserves exitfuncs (doCrazy docRoot resultsFile myDomains uc dt).
Proof. unfold doCrazy, doCrazy_domain. preserves_auto. Qed.

Lemma parseOutput_exitfuncs docRoot knownDomains resultsFile uc dt :
  preserves exitfuncs (parseOutput docRoot knownDomains resultsFile uc dt).
Proof.
  unfold parseOutput, collect, write_results, scan. preserves_auto.
Qed.

Lemma sendMail_exitfuncs resultsFile : preserves exitfuncs (sendMail resultsFile).
Proof. unfold sendMail, mail. preserves_auto. Qed.
End frames.

(** ** Workspace cleanup *)

Section cleanup_facts.
Context `{Platform}.

(** The body of [for f in tempFiles] in [doCleanup]. *)
#[local] Notation "'remove_body'" :=
  (λ f : string, try_except (os_remove f) (only OSError)
                   (λ _, print ("Error removing temporary file: " +:+ f))).

Lemma remove_body_run (f : string) (w : world) :
  (remove_body f w).1 = Ok tt
  ∧ fs (remove_body f w).2 = delete f (fs w)
  ∧ tempFiles (remove_body f w).2 = tempFiles w.
Proof.
  unfold try_except, os_remove.
  destruct (fs w !! f) as [lines|] eqn:E; cbn; [done|].
  by rewrite delete_id.
Qed.

Lemma remove_loop_run (l : list string) (w : world) :
  (for_each l remove_body w).1 = Ok tt
  ∧ fs (for_each l remove_body w).2 = foldl (λ files f, delete f files) (fs w) l
  ∧ tempFiles (for_each l remove_body w).2 = tempFiles w.
Proof.
  revert w. induction l as [|f l IH]; intros w; [done|].
  cbn [for_each foldl]. rewrite bind_run.
  destruct (remove_body_run f w) as (Hr & Hfs & Ht).
  destruct (remove_body f w) as [[[]|e] w1]; cbn in Hr, Hfs, Ht; [|done].
  destruct (IH w1) as (Hr' & Hfs' & Ht').
  rewrite Hr', Hfs', Ht', Hfs, Ht. done.
Qed.

Lemma lookup_foldl_delete (l : list string) (files : gmap string (list string))
    (p : string) :
  foldl (λ files f, delete f files) files l !! p
  = if decide (p ∈ l) then None else files !! p.
Proof.
  revert files. induction l as [|f l IH]; intros files; [done|].
  cbn [foldl]. rewrite IH. destruct (decide (p ∈ l)) as [Hin|Hnin].
  - rewrite decide_True; [done|]. by apply list_elem_of_further.
  - destruct (decide (p = f)) as [->|Hne].
    + rewrite decide_True by apply list_elem_of_here. apply lookup_delete_eq.
    + rewrite decide_False; [by apply lookup_delete_ne|].
      by intros [?|?]%elem_of_cons.
Qed.

(** [doCleanup] always returns, removes every registered path and leaves
    the other files and the registry alone. *)
Lemma doCleanup_run (docRoot : string) (w : world) :
  (doCleanup docRoot w).1 = Ok tt
  ∧ (∀ p, fs (doCleanup docRoot w).2 !! p
          = if decide (p ∈ tempFiles w) then None else fs w !! p)
  ∧ tempFiles (doCleanup docRoot w).2 = tempFiles w.
Proof.
  assert (doCleanup docRoot w = for_each (tempFiles w) remove_body w) as ->
    by reflexivity.
  destruct (remove_loop_run (tempFiles w) w) as (Hr & Hfs & Ht).
  split_and!; [done | | done].
  intros p. rewrite Hfs. apply lookup_foldl_delete.
Qed.

(** With an empty [tempFiles], as at startup, [doCleanup] changes
    nothing. *)
Lemma doCleanup_nothing_registered (docRoot : string) (w : world) :
  tempFiles w = [] → doCleanup docRoot w = (Ok tt, w).
Proof.
  intros Ht.
  assert (doCleanup docRoot w = for_each (tempFiles w) remove_body w) as ->
    by reflexivity.
  by rewrite Ht.
Qed.

(** Where [main] ends, either nothing was registered and [tempFiles] is
    empty, or [doCleanup] is the one registered exit function. *)
Lemma main_registry (argc : nat) (args : arguments)
    (fs0 : gmap string (list string)) :
  registry (main argc args (initial fs0)).2 = ([], [])
  ∨ ∃ docRoot, exitfuncs (main argc args (initial fs0)).2 = [docRoot].
Proof.
  unfold main.
  apply (bind_keep registry); [preserves_auto | by left; etrans |].
  intros _ w1 H1.
  apply (bind_keep registry); [preserves_auto | by left; etrans |].
  intros configDir w2 H2. rewrite H1 in H2.
  apply (bind_keep registry); [preserves_auto | by left; etrans |].
  intros docRoot w3 H3. rewrite H2 in H3.
  apply (bind_keep registry); [apply checkPerms_registry | by left; etrans |].
  intros _ w4 H4. rewrite H3 in H4.
  apply (bind_keep registry); [apply checkDepends_registry | by left; etrans |].
  intros _ w5 H5. rewrite H4 in H5.
  apply (bind_keep registry); [apply doCleanup_registry | by left; etrans |].
  intros _ w6 H6. rewrite H5 in H6.
  injection H6 as _ H6. right. exists docRoot.
  rewrite bind_run. cbn [atexit_register].
  apply (bind_keep exitfuncs); [apply doCrazy_exitfuncs | |].
  { intros w7 ->. cbn. by rewrite H6. }
  intros _ w7 H7.
  apply (bind_keep exitfuncs); [apply parseOutput_exitfuncs | |].
  { intros w8 ->. rewrite H7. cbn. by rewrite H6. }
  intros _ w8 H8.
  destruct (email args).
  - rewrite sendMail_exitfuncs, H8, H7. cbn. by rewrite H6.
  - cbn. rewrite H8, H7. cbn. by rewrite H6.
Qed.
End cleanup_facts.

(** C6, as the code has it.  After a run that ends with the interpreter
    exiting, however [main] ended (it returned, called [sys.exit] or was
    stopped by an exception), no path of [tempFiles] exists; a path
    is registered only when [doCleanup] is already registered as exit
    function; and in any state of the process [doCleanup] returns normally
    and leaves no registered path behind, including the paths that were
    already missing. *)
Theorem registered_paths_removed `{Platform} (argc : nat) (args : arguments)
    (fs0 : gmap string (list string)) :
  (∀ p, p ∈ tempFiles (run argc args fs0).2 → fs (run argc args fs0).2 !! p = None)
  ∧ (tempFiles (main argc args (initial fs0)).2 ≠ [] →
     ∃ docRoot, exitfuncs (main argc args (initial fs0)).2 = [docRoot])
  ∧ (∀ docRoot w,
       (doCleanup docRoot w).1 = Ok tt
       ∧ ∀ p, p ∈ tempFiles w → fs (doCleanup docRoot w).2 !! p = None).
Proof.
  assert (∀ docRoot w,
            (doCleanup docRoot w).1 = Ok tt
            ∧ ∀ p, p ∈ tempFiles w → fs (doCleanup docRoot w).2 !! p = None)
    as Hclean.
  { intros docRoot w. destruct (doCleanup_run docRoot w) as (Hr & Hfs & _).
    split; [done|]. intros p Hp. by rewrite Hfs, decide_True. }
  pose proof (main_registry argc args fs0) as Hreg.
  split_and!; [| | done].
  - unfold run.
    destruct (main argc args (initial fs0)) as [r w]. cbn [snd] in *.
    destruct Hreg as [[= Ht He] | [docRoot He]]; rewrite He; cbn.
    + rewrite Ht. by intros p ?%elem_of_nil.
    + destruct (doCleanup_run docRoot w) as (_ & Hfs & Ht).
      rewrite Ht. intros p Hp. by rewrite Hfs, decide_True.
  - intros Hne. destruct Hreg as [[= Ht He] | Hex]; [done | exact Hex].
Qed.

(** ** The checks before the generators run *)

Section check_facts.
Context `{Platform}.

Lemma checkPerms_run (docRoot resultsFile : string) (w : world) :
  (access_X_OK docRoot = true ∧ tempfile_ok docRoot = true
   ∧ checkPerms docRoot resultsFile w = (Ok tt, w))
  ∨ ((access_X_OK docRoot = false ∨ tempfile_ok docRoot = false)
     ∧ ∃ w', checkPerms docRoot resultsFile w = (Raise (SystemExit None), w')
             ∧ diagnosed w w').
Proof.
  unfold checkPerms, TemporaryFile, try_except. rewrite bind_run.
  destruct (access_X_OK docRoot); cbn.
  - destruct (tempfile_ok docRoot); cbn.
    + left. done.
    + right. split; [by right|]. eexists. split; [done|]. by eexists _, _.
  - right. split; [by left|]. eexists. split; [done|]. by eexists _, _.
Qed.

Lemma checkDepends_run (myDomains knownDomains : string) (uc dt : bool) (w : world) :
  (fs w !! myDomains ≠ None ∧ fs w !! knownDomains ≠ None
   ∧ (uc = true → fs w !! urlcrazyPath ≠ None)
   ∧ (dt = true → fs w !! dnstwistPath ≠ None)
   ∧ checkDepends myDomains knownDomains uc dt w = (Ok tt, w))
  ∨ ((fs w !! myDomains = None ∨ fs w !! knownDomains = None
      ∨ (uc = true ∧ fs w !! urlcrazyPath = None)
      ∨ (dt = true ∧ fs w !! dnstwistPath = None))
     ∧ ∃ w', checkDepends myDomains knownDomains uc dt w
             = (Raise (SystemExit None), w')
             ∧ diagnosed w w').
Proof.
  unfold checkDepends, access_F_OK, print, sys_exit, raise, mbind, M_bind,
    mret, M_ret. cbn.
  destruct (fs w !! myDomains) as [my|] eqn:Emy; cbn; last first.
  { right. split; [by left|]. eexists. split; [done|]. by eexists _, _. }
  destruct (fs w !! knownDomains) as [known|] eqn:Eknown; cbn; last first.
  { right. split; [by right; left|]. eexists. split; [done|]. by eexists _, _. }
  destruct uc; cbn.
  - destruct (fs w !! urlcrazyPath) as [ucp|] eqn:Euc; cbn; last first.
    { right. split; [by right; right; left|]. eexists. split; [done|].
      by eexists _, _. }
    destruct dt; cbn.
    + destruct (fs w !! dnstwistPath) as [dtp|] eqn:Edt; cbn.
      * left. done.
      * right. split; [by right; right; right|]. eexists. split; [done|].
        by eexists _, _.
    + left. done.
  - destruct dt; cbn.
    + destruct (fs w !! dnstwistPath) as [dtp|] eqn:Edt; cbn.
      * left. done.
      * right. split; [by right; right; right|]. eexists. split; [done|].
        by eexists _, _.
    + left. done.
Qed.

(** The test of a directory given on the command line. *)
Lemma directory_test_run (dir line : string) (w : world) :
  (if decide (dir ≠ getcwd) then
     if isdir dir then mret dir
     else print line;; print "Exiting...";; sys_exit None
   else mret dir) w = (Ok dir, w)
  ∨ ∃ w', (if decide (dir ≠ getcwd) then
             if isdir dir then mret dir
             else print line;; print "Exiting...";; sys_exit None
           else mret dir) w = (Raise (SystemExit None), w')
          ∧ diagnosed w w'.
Proof.
  destruct (decide (dir ≠ getcwd)); [|by left].
  destruct (isdir dir); [by left|].
  right. eexists. split; [done|]. by eexists _, _.
Qed.

Lemma diagnosed_initial (fs0 : gmap string (list string)) (w' : world) :
  diagnosed (initial fs0) w' →
  subprocesses w' = [] ∧ length (stdout w') = 2 ∧ fs w' = fs0
  ∧ exitfuncs w' = [].
Proof. intros (l1 & l2 & ->). done. Qed.

(** With an environment error [main] ends in [sys.exit()] before anything
    is registered or started. *)
Lemma main_environment_error (argc : nat) (args : arguments)
    (fs0 : gmap string (list string)) :
  argc ≠ 1 → environment_error args fs0 →
  ∃ w', main argc args (initial fs0) = (Raise (SystemExit None), w')
        ∧ diagnosed (initial fs0) w'.
Proof.
  intros Hargc Herr. unfold main. destruct (decide (argc = 1)); [done|].
  rewrite ->(bind_ok _ _ _ (initial fs0) tt) by done.
  rewrite bind_run.
  destruct (directory_test_run (config args)
              ("ERROR! Specified configuration directory " +:+ config args
               +:+ " does not exist!") (initial fs0))
    as [-> | (w' & -> & Hd)]; [|by exists w'].
  rewrite bind_run.
  destruct (directory_test_run (directory args)
              ("ERROR! Specified output directory " +:+ directory args
               +:+ " does not exist!") (initial fs0))
    as [-> | (w' & -> & Hd)]; [|by exists w'].
  rewrite bind_run.
  destruct (checkPerms_run (directory args)
              (path_join (directory args) (output args)) (initial fs0))
    as [(Hx & Ht & ->) | (_ & w' & -> & Hd)]; [|by exists w'].
  rewrite bind_run.
  destruct (checkDepends_run (path_join (config args) "mydomains.csv")
              (path_join (config args) "knowndomains.csv")
              (urlcrazy args) (dnstwist args) (initial fs0))
    as [(Hmy & Hknown & Huc & Hdt & _) | (_ & w' & -> & Hd)]; [|by exists w'].
  exfalso. cbn [fs initial] in *.
  destruct Herr as [?|[?|[?|[?|[[? ?]|[? ?]]]]]]; try congruence.
  - by apply Huc.
  - by apply Hdt.
Qed.
End check_facts.

(** C4, as the code has it.  For every environment error the run ends
    before a subprocess is started and after a diagnostic was printed; it
    ends in [sys.exit()] without a status, so the exit status of the process
    is 0.  (When the command line has no argument at all, [main] prints the
    usage text before any check and exits with status 1.) *)
Theorem environment_error_exits `{Platform} (argc : nat) (args : arguments)
    (fs0 : gmap string (list string)) :
  environment_error args fs0 →
  (run argc args fs0).1
    = Raise (SystemExit (if decide (argc = 1) then Some 1%Z else None))
  ∧ exit_status (run argc args fs0).1 = (if decide (argc = 1) then 1%Z else 0%Z)
  ∧ subprocesses (run argc args fs0).2 = []
  ∧ stdout (run argc args fs0).2 ≠ []
  ∧ length (stdout (run argc args fs0).2) = (if decide (argc = 1) then 1 else 2)
  ∧ fs (run argc args fs0).2 = fs0.
Proof.
  intros Herr. unfold run. destruct (decide (argc = 1)) as [->|Hargc].
  - done.
  - destruct (main_environment_error argc args fs0 Hargc Herr) as (w' & -> & Hd).
    apply diagnosed_initial in Hd as (Hs & Ho & Hf & He).
    rewrite He. cbn. split_and!; try done.
    intros Hnil. by rewrite Hnil in Ho.
Qed.

(** ** The functions on the example files *)

(** C2 on the code.  At startup [tempFiles] is empty, so the first call of
    [doCleanup] removes nothing: the file that an earlier run left in the
    output directory is still listed after it, and the run goes on to parse
    it. *)
Theorem startup_cleanup_keeps_stale_file :
  doCleanup "/work" (initial stale_directory)
    = (Ok tt, initial stale_directory)
  ∧ "old.com.uctmp"
      ∈ listdir "/work"
          (fs (doCleanup "/work" (initial stale_directory)).2)
  ∧ fs (run (H:=example_platform generators_work) 3 (example_args true true)
          stale_directory).2 !! "/work/results.csv"
    = Some ["Domain"; "od.com"; "exmple.com"; "dxample.com"].
Proof.
  split_and!.
  - by apply doCleanup_nothing_registered.
  - apply elem_of_listdir. split; [reflexivity|]. vm_compute. by eexists.
  - vm_compute. reflexivity.
Qed.

(** C3 on the code.  An empty line or a null byte in a dnstwist file ends
    [parseOutput] with an exception and no results file is written, although
    the next line of the file is a good row; the same line in a urlcrazy
    file is passed over or cleaned and the rows after it are used. *)
Theorem dnstwist_bad_row_aborts :
  let parse := parseOutput (H:=example_os) "/work" "/work/knowndomains.csv"
                 "/work/results.csv" in
  (parse false true (initial empty_line_dnstwist)).1 = Raise IndexError
  ∧ fs (parse false true (initial empty_line_dnstwist)).2 !! "/work/results.csv"
    = None
  ∧ (parse false true (initial nul_dnstwist)).1 = Raise CsvError
  ∧ fs (parse false true (initial nul_dnstwist)).2 !! "/work/results.csv" = None
  ∧ fs (parse true false (initial empty_line_urlcrazy)).2 !! "/work/results.csv"
    = Some ["Domain"; "exmple.com"]
  ∧ fs (parse true false (initial nul_urlcrazy)).2 !! "/work/results.csv"
    = Some ["Domain"; "dxample.com"].
Proof. vm_compute. split_and!; reflexivity. Qed.

(** C5 on the code.  dnstwist fails for example.com while urlcrazy works:
    the failure is printed, the empty file example.com.dttmp stays in the
    output directory, [parseOutput] ends with [StopIteration] on it, and no
    results file is written, so the candidates of urlcrazy are lost.  The
    same happens when dnstwist runs and prints nothing.  A failure of
    urlcrazy leaves no file behind, and the run then completes with the
    candidates of dnstwist. *)
Theorem dnstwist_failure_aborts_run :
  let r := run (H:=example_os) 3 (example_args true true) example_config in
  let silent := run (H:=example_platform dnstwist_silent) 3
                  (example_args true true) example_config in
  let other := run (H:=example_platform urlcrazy_fails) 3
                 (example_args true true) example_config in
  r.1 = Raise StopIteration
  ∧ exit_status r.1 = 1%Z
  ∧ stdout r.2
    = ["Unexpected error running dnstwist: <class 'subprocess.CalledProcessError'>"]
  ∧ fs r.2 !! "/work/example.com.dttmp" = Some []
  ∧ fs r.2 !! "/work/results.csv" = None
  ∧ fs (run (H:=example_os) 3 (example_args true false) example_config).2
      !! "/work/results.csv" = Some ["Domain"; "exmple.com"]
  ∧ silent.1 = Raise StopIteration
  ∧ fs silent.2 !! "/work/results.csv" = None
  ∧ other.1 = Ok tt
  ∧ stdout other.2
    = ["Unexpected error running urlcrazy: <type 'exceptions.OSError'>"]
  ∧ fs other.2 !! "/work/results.csv" = Some ["Domain"; "dxample.com"].
Proof. vm_compute. split_and!; reflexivity. Qed.

(** C4 as the claim states it fails: with mydomains.csv missing the run
    prints its diagnostic and starts no subprocess, and its exit status
    is 0. *)
Lemma missing_config_exit_status_zero :
  let fs0 := delete "/work/mydomains.csv" example_config in
  let r := run (H:=example_os) 3 (example_args true true) fs0 in
  ¬ (environment_error (H:=example_os) (example_args true true) fs0 →
     subprocesses r.2 = [] ∧ stdout r.2 ≠ [] ∧ exit_status r.1 ≠ 0%Z).
Proof.
  intros fs0 r Hclaim.
  assert (environment_error (H:=example_os) (example_args true true) fs0) as Herr.
  { right. right. left. vm_compute. reflexivity. }
  destruct (Hclaim Herr) as (_ & _ & Hstatus). apply Hstatus.
  vm_compute. reflexivity.
Qed.

(** ** The theorems at the example files *)

(** C8 at a list of two candidates. *)
Lemma write_results_rows_witness :
  creatable (Platform:=example_os) "/work/results.csv" = true
  ∧ fs (write_results (H:=example_os) "/work/results.csv"
          [PStr "exmple.com"; PStr "dxample.com"] (initial ∅)).2
      !! "/work/results.csv"
    = Some ["Domain"; "exmple.com"; "dxample.com"].
Proof.
  split; [reflexivity|].
  exact (proj1 (proj2 (write_results_rows (H:=example_os) "/work/results.csv"
                         [PStr "exmple.com"; PStr "dxample.com"] (initial ∅)
                         eq_refl))).
Defined.

(** C1 at the example directory: examp1e.com is in the ledger and is
    reported by both generators, od.com, exmple.com and dxample.com are
    new. *)
Lemma parseOutput_new_and_unique_witness :
  let w := initial parse_directory in
  let w' := (parseOutput (H:=example_os) "/work" "/work/knowndomains.csv"
               "/work/results.csv" true true w).2 in
  fs w' !! "/work/results.csv"
    = Some ["Domain"; "od.com"; "exmple.com"; "dxample.com"]
  ∧ ∃ domains,
      fs w' !! "/work/results.csv"
      = Some (csv_writerow (Platform:=example_os) [PStr "Domain"]
              :: ((λ row, csv_writerow (Platform:=example_os) [row]) <$> domains))
      ∧ NoDup domains
      ∧ ∀ d, d ∈ domains → d ∉ [PStr "examp1e.com"].
Proof.
  intros w w'. split; [vm_compute; reflexivity|].
  apply (parseOutput_new_and_unique (H:=example_os) "/work"
           "/work/knowndomains.csv" "/work/results.csv" true true w w'
           ["Domain,Reason"; "examp1e.com,Squatter"] [PStr "examp1e.com"]);
    vm_compute; reflexivity.
Defined.

(** C10 at the example directory: old.com.uctmp was left by an earlier run
    and is not in [tempFiles]; its row for od.com is in the results. *)
Lemma parseOutput_reads_directory_witness :
  let w := initial parse_directory in
  let w' := (parseOutput (H:=example_os) "/work" "/work/knowndomains.csv"
               "/work/results.csv" true true w).2 in
  tempFiles w = []
  ∧ ∃ domains,
      fs w' !! "/work/results.csv"
      = Some (csv_writerow (Platform:=example_os) [PStr "Domain"]
              :: ((λ row, csv_writerow (Platform:=example_os) [row]) <$> domains))
      ∧ PStr "od.com" ∈ domains.
Proof.
  intros w w'. split; [reflexivity|].
  destruct (parseOutput_reads_directory (H:=example_os) "/work"
              "/work/knowndomains.csv" "/work/results.csv" true true w w'
              ["Domain,Reason"; "examp1e.com,Squatter"] [PStr "examp1e.com"]
              "old.com.uctmp" stale_output)
    as (domains & Hfile & Huc & _ & _); [vm_compute; reflexivity..|].
  exists domains. split; [exact Hfile|].
  apply (Huc eq_refl eq_refl
           (make_dictrow
              ["Typo Type"; "Typo"; "DNS-A"; "CC-A"; "DNS-MX"; "Extn"]
              ["Character Omission"; "od.com"; "9.9.9.9"; "US"; EmptyString; "com"])
           (PStr "US") (PStr "od.com")).
  - vm_compute. apply list_elem_of_here.
  - vm_compute. reflexivity.
  - discriminate.
  - vm_compute. reflexivity.
  - intros [Heq|Hin]%elem_of_cons; [discriminate | by apply elem_of_nil in Hin].
Defined.

(** C4 at the example with mydomains.csv missing. *)
Lemma environment_error_exits_witness :
  let fs0 := delete "/work/mydomains.csv" example_config in
  let r := run (H:=example_os) 3 (example_args true true) fs0 in
  environment_error (H:=example_os) (example_args true true) fs0
  ∧ r.1 = Raise (SystemExit None)
  ∧ exit_status r.1 = 0%Z
  ∧ subprocesses r.2 = []
  ∧ stdout r.2 ≠ []
  ∧ length (stdout r.2) = 2
  ∧ fs r.2 = fs0.
Proof.
  intros fs0 r.
  assert (environment_error (H:=example_os) (example_args true true) fs0) as Herr.
  { right. right. left. vm_compute. reflexivity. }
  split; [exact Herr|].
  exact (environment_error_exits (H:=example_os) 3 (example_args true true) fs0
           Herr).
Defined.

(** C6 at the example in which dnstwist fails and the run ends with an
    exception: the registered file of urlcrazy is gone after the run. *)
Lemma registered_paths_removed_witness :
  let r := run (H:=example_os) 3 (example_args true true) example_config in
  r.1 = Raise StopIteration
  ∧ "/work/example.com.uctmp" ∈ tempFiles r.2
  ∧ fs r.2 !! "/work/example.com.uctmp" = None.
Proof.
  intros r.
  assert ("/work/example.com.uctmp" ∈ tempFiles r.2) as Hin.
  { vm_compute. apply list_elem_of_here. }
  split_and!; [vm_compute; reflexivity | exact Hin |].
  exact (proj1 (registered_paths_removed (H:=example_os) 3
                  (example_args true true) example_config)
           "/work/example.com.uctmp" Hin).
Defined.

(** * Further properties of the script *)

(** ** The deduplicator with a marker function *)

(** X1. With a marker function, [dedup] keeps for every marker the first
    item that has it: the markers of the output are those of the input
    without repetition, the output is a subsequence of the input, an item is
    appended exactly when its marker is new, and deduplicating again changes
    nothing. *)
Theorem dedup_with_first_per_marker {A K : Type} `{Countable K}
    (idfun : A → K) (l : list A) :
  NoDup (idfun <$> dedup_with idfun l)
  ∧ (∀ k, k ∈ idfun <$> dedup_with idfun l ↔ k ∈ idfun <$> l)
  ∧ dedup_with idfun l `sublist_of` l
  ∧ (∀ x, dedup_with idfun (l ++ [x])
          = if decide (idfun x ∈ idfun <$> l) then dedup_with idfun l
            else dedup_with idfun l ++ [x])
  ∧ dedup_with idfun (dedup_with idfun l) = dedup_with idfun l.
Proof.
  split_and!.
  - apply dedup_with_NoDup.
  - intros k. apply dedup_with_markers.
  - apply dedup_with_sublist.
  - intros x. apply dedup_with_snoc.
  - apply dedup_with_idemp.
Qed.

(** X2. [dedup] returns its input unchanged exactly when the input has no
    duplicates; in every case the output is not longer than the input. *)
Theorem dedup_fixed_point {A : Type} `{Countable A} (l : list A) :
  (dedup l = l ↔ NoDup l) ∧ length (dedup l) ≤ length l.
Proof.
  split.
  - split.
    + intros <-. apply NoDup_dedup.
    + induction l as [|x l IH] using rev_ind; [done|].
      intros (Hl & Hx & _)%NoDup_app. rewrite dedup_snoc.
      rewrite decide_False.
      * by rewrite IH.
      * intros Hin. apply (Hx x Hin). apply list_elem_of_here.
  - apply sublist_length, dedup_with_sublist.
Qed.

Lemma dedup_concat {A : Type} `{Countable A} (l1 l2 : list A) :
  dedup (l1 ++ l2) = dedup l1 ++ filter (λ x, x ∉ l1) (dedup l2).
Proof.
  induction l2 as [|x l2 IH] using rev_ind.
  - by rewrite !app_nil_r.
  - rewrite app_assoc, !dedup_snoc.
    destruct (decide (x ∈ l2)) as [H2|H2].
    + rewrite decide_True by (apply elem_of_app; by right). done.
    + rewrite filter_app, filter_cons, filter_nil.
      destruct (decide (x ∈ l1)) as [H1|H1].
      * rewrite decide_True by (apply elem_of_app; by left).
        rewrite decide_False by (by intros Hn). by rewrite app_nil_r.
      * rewrite decide_False by (by intros [?|?]%elem_of_app).
        rewrite decide_True by done. by rewrite IH, app_assoc.
Qed.

(** X3. Deduplicating two lists one after the other: the first list is
    deduplicated on its own, and of the second list the first occurrences
    that are not in the first list follow.  In [parseOutput] the first list
    holds the urlcrazy candidates and the second the dnstwist candidates. *)
Theorem dedup_app {A : Type} `{Countable A} (l1 l2 : list A) :
  dedup (l1 ++ l2) = dedup l1 ++ filter (λ x, x ∉ l1) (dedup l2).
Proof. apply dedup_concat. Qed.

(** ** The report mail *)

Section sendMail_facts.
Context `{Platform}.

Lemma smtp_deliver_run (msg : message) (w : world) :
  smtp_deliver msg w =
  (match smtp_send msg with Some e => Raise e | None => Ok tt end,
   World (fs w) (stdout w) (tempFiles w) (exitfuncs w) (subprocesses w)
         (outbox w ++ [msg])).
Proof. unfold smtp_deliver. by destruct (smtp_send msg). Qed.

Lemma sendMail_run (resultsFile : string) (w : world) :
  sendMail resultsFile w =
  match fs w !! resultsFile with
  | None => (Raise IOError, w)
  | Some lines =>
      smtp_deliver
        (Message report_subject
           (if decide (length lines = 1) then no_results_text else results_text)
           (if decide (2 ≤ length lines) then Some lines else None)) w
  end.
Proof.
  unfold sendMail. rewrite bind_run. unfold open_read at 1.
  destruct (fs w !! resultsFile) as [lines|] eqn:E; [|done].
  destruct (decide (length lines = 1)) as [H1|H1].
  - unfold mail. rewrite bind_run.
    rewrite decide_False by lia. rewrite decide_False by lia. done.
  - unfold mail. rewrite bind_run.
    destruct (decide (2 ≤ length lines)); [|done].
    rewrite bind_run. unfold open_read. by rewrite E.
Qed.
End sendMail_facts.

(** X4. [sendMail] gives the mail server exactly one message.  Its text
    says that there are no new results when the results file has exactly one
    line, and that the results are attached otherwise; the file is attached
    when it has at least two lines, so an empty results file gives the text
    about attached results without an attachment.  A failure of the server
    is the exception of [sendMail], and without a results file [sendMail]
    raises [IOError] and sends nothing. *)
Theorem sendMail_message `{Platform} (resultsFile : string) (w : world) :
  match fs w !! resultsFile with
  | None => sendMail resultsFile w = (Raise IOError, w)
  | Some lines =>
      let msg :=
        Message "Daily DNS typosquatting recon report"
          (if decide (length lines = 1)
           then "There were no new results in today's scan"
           else "The results from today's DNS typosquatting scan are attached")
          (if decide (2 ≤ length lines) then Some lines else None) in
      (sendMail resultsFile w).1
        = match smtp_send msg with Some e => Raise e | None => Ok tt end
      ∧ outbox (sendMail resultsFile w).2 = outbox w ++ [msg]
      ∧ fs (sendMail resultsFile w).2 = fs w
      ∧ stdout (sendMail resultsFile w).2 = stdout w
  end.
Proof.
  rewrite sendMail_run. destruct (fs w !! resultsFile) as [lines|]; [|done].
  cbn zeta. by rewrite smtp_deliver_run.
Qed.

(** X5. The writer and the mail together: after [write_results] has
    written the candidates, [sendMail] sends the text about no new results
    without an attachment exactly when there is no candidate, and otherwise
    the text about attached results with the whole results file, header
    included. *)
Theorem sendMail_after_write_results `{Platform} (resultsFile : string)
    (domains : list pyval) (w : world) :
  creatable resultsFile = true →
  outbox ((write_results resultsFile domains;; sendMail resultsFile) w).2
  = outbox w
    ++ [Message "Daily DNS typosquatting recon report"
          (if decide (domains = [])
           then "There were no new results in today's scan"
           else "The results from today's DNS typosquatting scan are attached")
          (if decide (domains = []) then None
           else Some (csv_writerow [PStr "Domain"]
                      :: ((λ row, csv_writerow [row]) <$> domains)))].
Proof.
  intros Hc. rewrite bind_run, write_results_run, Hc.
  rewrite sendMail_run. cbn [fs set_fs]. rewrite lookup_insert_eq.
  rewrite smtp_deliver_run. cbn [snd outbox]. do 2 f_equal.
  unfold artifact. cbn [length]. rewrite length_fmap.
  destruct domains as [|d domains]; cbn [length].
  - rewrite decide_True by done. rewrite decide_False by lia.
    by rewrite decide_True.
  - rewrite decide_False by lia. rewrite decide_True by lia.
    by rewrite decide_False.
Qed.

Lemma sendMail_after_write_results_witness :
  creatable (Platform:=example_os) "/work/results.csv" = true
  ∧ outbox ((write_results (H:=example_os) "/work/results.csv" [PStr "exmple.com"];;
             sendMail (H:=example_os) "/work/results.csv") (initial ∅)).2
    = [Message "Daily DNS typosquatting recon report"
         "The results from today's DNS typosquatting scan are attached"
         (Some ["Domain"; "exmple.com"])].
Proof.
  split; [reflexivity|].
  exact (sendMail_after_write_results (H:=example_os) "/work/results.csv"
           [PStr "exmple.com"] (initial ∅) eq_refl).
Defined.

(** ** Where the candidates come from *)

Section provenance.
Context `{Platform}.
Variable knowndom : list pyval.

Lemma fold_result_appends_in {R : Type} (P : pyval → Prop)
    (body : list pyval → R → result (list pyval)) (rows : list R)
    (s s' : list pyval) :
  (∀ s0 x s1, x ∈ rows → body s0 x = Ok s1 →
     ∃ new, s1 = s0 ++ new ∧ Forall P new) →
  fold_result rows s body = Ok s' →
  ∃ new, s' = s ++ new ∧ Forall P new.
Proof.
  revert s. induction rows as [|x rows IH]; intros s Hb Hf; cbn in Hf.
  - injection Hf as <-. exists []. by rewrite app_nil_r.
  - destruct (body s x) as [s1|e] eqn:E; [|done].
    destruct (Hb _ _ _ (list_elem_of_here _ _) E) as (new1 & -> & Hn1).
    destruct (IH (s ++ new1)) as (new2 & -> & Hn2); [|done|].
    { intros s0 y s2 Hy. apply Hb. by apply list_elem_of_further. }
    exists (new1 ++ new2). split; [by rewrite app_assoc | by apply Forall_app].
Qed.

Lemma urlcrazy_row_reports (row : dictrow) (s s' : list pyval) :
  urlcrazy_row knowndom s row = Ok s' →
  ∃ new, s' = s ++ new
         ∧ Forall (λ d, ∃ cc, getitem row "CC-A" = Ok cc ∧ cc ≠ PStr "?"
                              ∧ getitem row "Typo" = Ok d ∧ d ∉ knowndom) new.
Proof.
  unfold urlcrazy_row.
  assert (∀ P, Ok s = Ok s' → ∃ new, s' = s ++ new ∧ Forall P new) as Hsame.
  { intros P [= <-]. exists []. by rewrite app_nil_r. }
  case_decide; [|by apply Hsame].
  destruct (getitem row "CC-A") as [cc|] eqn:Ecc; cbn; [|done].
  case_decide; [|by apply Hsame].
  destruct (getitem row "Typo") as [typo|] eqn:Etypo; cbn; [|done].
  case_decide; [by apply Hsame|]. intros [= <-]. exists [typo]. split; [done|].
  apply Forall_singleton. by exists cc.
Qed.

Lemma parse_urlcrazy_reports (csvfile : list string) (s s' : list pyval) :
  parse_urlcrazy knowndom s csvfile = Ok s' →
  ∃ new, s' = s ++ new ∧ Forall (urlcrazy_reports knowndom csvfile) new.
Proof.
  unfold parse_urlcrazy, urlcrazy_reports.
  destruct (DictReader _) as [rows bad]. intros Hi%iterate_ok. cbn [fst].
  eapply fold_result_appends_in; [|exact Hi].
  intros s0 row s1 Hrow (new & -> & Hnew)%urlcrazy_row_reports.
  exists new. split; [done|]. eapply Forall_impl; [exact Hnew|].
  intros d (cc & ? & ? & ? & ?). by exists row, cc.
Qed.

Lemma parse_dnstwist_reports (csvfile : list string) (s s' : list pyval) :
  parse_dnstwist knowndom s csvfile = Ok s' →
  ∃ new, s' = s ++ new ∧ Forall (dnstwist_reports knowndom csvfile) new.
Proof.
  unfold parse_dnstwist, dnstwist_reports.
  destruct (records (csv_reader csvfile)) as [|? [|? rows]]; [done..|].
  intros Hi%iterate_ok. cbn [drop].
  eapply fold_result_appends_in; [|exact Hi].
  intros s0 row s1 Hrow. unfold dnstwist_row.
  destruct (row !! 1) as [name|] eqn:E; [|done]. case_decide.
  - intros [= <-]. exists []. by rewrite app_nil_r.
  - intros [= <-]. exists [PStr name]. split; [done|].
    apply Forall_singleton. by exists row, name.
Qed.

(** The files of a scan report what the loop over them appends. *)
Lemma read_files_reports (files : gmap string (list string))
    (docRoot suffix : string)
    (parse : list pyval → list string → result (list pyval))
    (reports : list string → pyval → Prop) (s s' : list pyval) :
  (∀ csvfile s0 s1, parse s0 csvfile = Ok s1 →
     ∃ new, s1 = s0 ++ new ∧ Forall (reports csvfile) new) →
  fold_result
    (path_join docRoot <$>
       filter (λ f, endswith f suffix = true) (listdir docRoot files))
    s (λ s file, match files !! file with
                 | Some csvfile => parse s csvfile
                 | None => Raise IOError
                 end) = Ok s' →
  ∃ new, s' = s ++ new
         ∧ Forall (reported_in files docRoot suffix reports) new.
Proof.
  intros Hp. apply fold_result_appends_in.
  intros s0 file s1 Hfile Hbody.
  apply list_elem_of_fmap in Hfile as (f & -> & Hf).
  apply list_elem_of_filter in Hf as [Hs Hf].
  apply elem_of_listdir in Hf as [En _].
  destruct (files !! path_join docRoot f) as [csvfile|] eqn:E; [|done].
  destruct (Hp _ _ _ Hbody) as (new & -> & Hnew).
  exists new. split; [done|]. eapply Forall_impl; [exact Hnew|].
  intros d Hd. by exists f, csvfile.
Qed.
End provenance.

(** X6. Every domain in the results file was reported by a file of an
    enabled generator: it is the Typo of a row with a CC-A other than "?" in
    a .uctmp file of the output directory, or the second field of a record
    after the first two in a .dttmp file, and it is not in the ledger.  A
    row that urlcrazy marks with "?", the two leading records of a dnstwist
    file and the files of a disabled generator contribute nothing. *)
Theorem parseOutput_only_reported `{Platform}
    (docRoot knownDomains resultsFile : string) (uc dt : bool) (w w' : world)
    (domfile : list string) (knowndom : list pyval) :
  parseOutput docRoot knownDomains resultsFile uc dt w = (Ok tt, w') →
  fs w !! knownDomains = Some domfile →
  load_knowndom domfile = Ok knowndom →
  ∃ domains,
    fs w' !! resultsFile
    = Some (csv_writerow [PStr "Domain"]
            :: ((λ row, csv_writerow [row]) <$> domains))
    ∧ ∀ d, d ∈ domains →
        (uc = true
         ∧ reported_in (fs w) docRoot ".uctmp" (urlcrazy_reports knowndom) d)
        ∨ (dt = true
           ∧ reported_in (fs w) docRoot ".dttmp" (dnstwist_reports knowndom) d).
Proof.
  intros (collected & Hc & Hfile)%parseOutput_ok Hk Hl.
  exists (dedup collected). split; [done|].
  intros d Hd. apply (proj1 (elem_of_dedup _ _)) in Hd.
  destruct (collect_phases _ _ _ _ _ _ _ _ Hc Hk Hl) as (ucd & Huc & Hdt).
  assert (Forall (λ d, uc = true
                       ∧ reported_in (fs w) docRoot ".uctmp"
                           (urlcrazy_reports knowndom) d) ucd) as Hucd.
  { destruct uc; [|by injection Huc as <-].
    eapply read_files_reports in Huc as (new & -> & Hnew);
      [|apply parse_urlcrazy_reports].
    cbn. eapply Forall_impl; [exact Hnew|]. by intros. }
  assert (∃ new, collected = ucd ++ new
                 ∧ Forall (λ d, dt = true
                                ∧ reported_in (fs w) docRoot ".dttmp"
                                    (dnstwist_reports knowndom) d) new)
    as (new & -> & Hnew).
  { destruct dt.
    - eapply read_files_reports in Hdt as (new & -> & Hnew);
        [|apply parse_dnstwist_reports].
      exists new. split; [done|]. eapply Forall_impl; [exact Hnew|]. by intros.
    - injection Hdt as <-. exists []. by rewrite app_nil_r. }
  rewrite Forall_forall in Hucd. rewrite Forall_forall in Hnew.
  apply elem_of_app in Hd as [Hd|Hd]; [left; by apply Hucd | right; by apply Hnew].
Qed.

Lemma parseOutput_only_reported_witness :
  let w := initial parse_directory in
  let w' := (parseOutput (H:=example_os) "/work" "/work/knowndomains.csv"
               "/work/results.csv" true false w).2 in
  fs w' !! "/work/results.csv" = Some ["Domain"; "od.com"; "exmple.com"]
  ∧ ∃ domains,
      fs w' !! "/work/results.csv"
      = Some (csv_writerow (Platform:=example_os) [PStr "Domain"]
              :: ((λ row, csv_writerow (Platform:=example_os) [row]) <$> domains))
      ∧ ∀ d, d ∈ domains →
          (true = true
           ∧ reported_in (fs w) "/work" ".uctmp"
               (urlcrazy_reports (H:=example_os) [PStr "examp1e.com"]) d)
          ∨ (false = true
             ∧ reported_in (fs w) "/work" ".dttmp"
                 (dnstwist_reports (H:=example_os) [PStr "examp1e.com"]) d).
Proof.
  intros w w'. split; [vm_compute; reflexivity|].
  apply (parseOutput_only_reported (H:=example_os) "/work"
           "/work/knowndomains.csv" "/work/results.csv" true false w w'
           ["Domain,Reason"; "examp1e.com,Squatter"] [PStr "examp1e.com"]);
    vm_compute; reflexivity.
Defined.

(** ** How [parseOutput] ends *)

(** X7. [parseOutput] writes all of the results file or nothing: when it
    ends with an exception, be it from the ledger, from one of the generator
    files or from opening the results file, the state is the one it started
    in; when it returns, only the results file has changed. *)
Theorem parseOutput_all_or_nothing `{Platform}
    (docRoot knownDomains resultsFile : string) (uc dt : bool) (w : world) :
  ((parseOutput docRoot knownDomains resultsFile uc dt w).1 = Ok tt
   ∧ ∃ domains,
       (parseOutput docRoot knownDomains resultsFile uc dt w).2
       = World (<[resultsFile := csv_writerow [PStr "Domain"]
                    :: ((λ row, csv_writerow [row]) <$> domains)]> (fs w))
               (stdout w) (tempFiles w) (exitfuncs w) (subprocesses w)
               (outbox w))
  ∨ ((∃ e, (parseOutput docRoot knownDomains resultsFile uc dt w).1 = Raise e)
     ∧ (parseOutput docRoot knownDomains resultsFile uc dt w).2 = w).
Proof.
  rewrite parseOutput_run.
  destruct (collect docRoot knownDomains uc dt w).1 as [domains|e].
  - destruct (creatable resultsFile).
    + left. split; [done|]. by exists (dedup domains).
    + right. split; [by exists IOError | done].
  - right. split; [by exists e | done].
Qed.

Section ledger_facts.
Context `{Platform}.

Lemma lookup_foldl_zip_fresh (fieldnames row : list string)
    (m : gmap string pyval) (key : string) :
  key ∉ fieldnames →
  foldl (λ m kv, <[kv.1 := PStr kv.2]> m) m (zip fieldnames row) !! key
  = m !! key.
Proof.
  revert row m. induction fieldnames as [|k fieldnames IH]; intros row m Hk;
    [done|].
  destruct row as [|v row]; [done|]. cbn.
  apply not_elem_of_cons in Hk as [Hne Hk].
  rewrite IH by done. by apply lookup_insert_ne.
Qed.

Lemma lookup_foldl_restval_fresh (keys : list string) (m : gmap string pyval)
    (key : string) :
  key ∉ keys →
  foldl (λ m k, <[k := PNone]> m) m keys !! key = m !! key.
Proof.
  revert m. induction keys as [|k keys IH]; intros m Hk; [done|].
  apply not_elem_of_cons in Hk as [Hne Hk]. cbn.
  rewrite IH by done. by apply lookup_insert_ne.
Qed.

(** A row has no value under a name that is not in the header. *)
Lemma getitem_missing_field (fieldnames row : list string) (key : string) :
  key ∉ fieldnames → getitem (make_dictrow fieldnames row) key = Raise KeyError.
Proof.
  intros Hk. unfold getitem, make_dictrow. case_decide; cbn.
  - by rewrite lookup_foldl_zip_fresh.
  - rewrite lookup_foldl_restval_fresh, lookup_foldl_zip_fresh; [done..|].
    intros Hin. apply Hk. by eapply subseteq_drop.
Qed.

Lemma load_knowndom_missing_header (domfile : list string)
    (fieldnames : list string) (rows : list (list string)) (bad : bool)
    (row : list string) :
  csv_reader domfile = Reader (fieldnames :: rows) bad →
  "Domain" ∉ fieldnames → row ∈ rows → row ≠ [] →
  load_knowndom domfile = Raise KeyError.
Proof.
  intros Hr Hd Hrow Hne. unfold load_knowndom, DictReader. rewrite Hr. cbn.
  assert (row ∈ filter (λ row, row ≠ []) rows) as Hin
    by by apply list_elem_of_filter.
  destruct (filter (λ row, row ≠ []) rows) as [|first others];
    [by apply elem_of_nil in Hin|].
  unfold iterate. cbn. by rewrite getitem_missing_field.
Qed.
End ledger_facts.

(** X8. A ledger whose header has no field Domain and that has a row which
    is not empty ends [parseOutput] with [KeyError]: nothing is written and
    the state is unchanged, whatever the generator files hold. *)
Theorem parseOutput_ledger_without_Domain `{Platform}
    (docRoot knownDomains resultsFile : string) (uc dt : bool) (w : world)
    (domfile fieldnames : list string) (rows : list (list string)) (bad : bool)
    (row : list string) :
  fs w !! knownDomains = Some domfile →
  csv_reader domfile = Reader (fieldnames :: rows) bad →
  "Domain" ∉ fieldnames → row ∈ rows → row ≠ [] →
  parseOutput docRoot knownDomains resultsFile uc dt w = (Raise KeyError, w).
Proof.
  intros Hk Hr Hd Hrow Hne.
  rewrite parseOutput_run, collect_run. cbn [fst]. rewrite Hk.
  by erewrite load_knowndom_missing_header.
Qed.

Lemma parseOutput_ledger_without_Domain_witness :
  let w := initial (<["/work/knowndomains.csv" :=
                        ["Name,Reason"; "examp1e.com,Squatter"]]> parse_directory) in
  parseOutput (H:=example_os) "/work" "/work/knowndomains.csv"
    "/work/results.csv" true true w = (Raise KeyError, w).
Proof.
  intros w.
  apply (parseOutput_ledger_without_Domain (H:=example_os) "/work"
           "/work/knowndomains.csv" "/work/results.csv" true true w
           ["Name,Reason"; "examp1e.com,Squatter"] ["Name"; "Reason"]
           [["examp1e.com"; "Squatter"]] false ["examp1e.com"; "Squatter"]).
  - vm_compute. reflexivity.
  - vm_compute. reflexivity.
  - intros [Heq|[Heq|Hin%elem_of_nil]%elem_of_cons]%elem_of_cons;
      [discriminate.. | done].
  - apply list_elem_of_here.
  - discriminate.
Defined.

(** X9. Enabling dnstwist next to urlcrazy only adds rows at the end of
    the results file: when [parseOutput] returns with both generators
    enabled, it also returns with urlcrazy alone, the rows it writes then
    are the leading rows of the file written with both, in the same order,
    and the rows that follow are domains that urlcrazy did not give. *)
Theorem parseOutput_urlcrazy_rows_first `{Platform}
    (docRoot knownDomains resultsFile : string) (w w' : world) :
  parseOutput docRoot knownDomains resultsFile true true w = (Ok tt, w') →
  ∃ first more,
    (parseOutput docRoot knownDomains resultsFile true false w).1 = Ok tt
    ∧ fs (parseOutput docRoot knownDomains resultsFile true false w).2
        !! resultsFile
      = Some (csv_writerow [PStr "Domain"]
              :: ((λ row, csv_writerow [row]) <$> first))
    ∧ fs w' !! resultsFile
      = Some (csv_writerow [PStr "Domain"]
              :: ((λ row, csv_writerow [row]) <$> (first ++ more)))
    ∧ ∀ d, d ∈ more → d ∉ first.
Proof.
  rewrite !parseOutput_run, !collect_run. cbn [fst].
  destruct (fs w !! knownDomains) as [domfile|]; [|done].
  destruct (load_knowndom domfile) as [knowndom|e]; [|done].
  cbn [mbind result_bind].
  destruct (fold_result _ [] _) as [ucd|e] eqn:Euc; cbn [mbind result_bind];
    [|done].
  destruct (fold_result _ ucd _) as [domains|e] eqn:Edt; [|done].
  destruct (creatable resultsFile); [|done]. intros [= <-].
  eapply fold_result_appends in Edt as (new & -> & _);
    [|apply read_files_appends, parse_dnstwist_appends].
  exists (dedup ucd), (filter (λ x, x ∉ ucd) (dedup new)).
  cbn [fst snd fs set_fs]. rewrite !lookup_insert_eq, dedup_concat.
  unfold artifact. split_and!; [reflexivity..|].
  intros d [Hd _]%list_elem_of_filter Hin. apply Hd.
  by apply (proj1 (elem_of_dedup _ _)).
Qed.

Lemma parseOutput_urlcrazy_rows_first_witness :
  let w := initial parse_directory in
  let w' := (parseOutput (H:=example_os) "/work" "/work/knowndomains.csv"
               "/work/results.csv" true true w).2 in
  fs (parseOutput (H:=example_os) "/work" "/work/knowndomains.csv"
        "/work/results.csv" true false w).2 !! "/work/results.csv"
    = Some ["Domain"; "od.com"; "exmple.com"]
  ∧ fs w' !! "/work/results.csv"
    = Some ["Domain"; "od.com"; "exmple.com"; "dxample.com"]
  ∧ ∃ first more,
      fs w' !! "/work/results.csv"
      = Some (csv_writerow (Platform:=example_os) [PStr "Domain"]
              :: ((λ row, csv_writerow (Platform:=example_os) [row])
                    <$> (first ++ more)))
      ∧ ∀ d, d ∈ more → d ∉ first.
Proof.
  intros w w'. split_and!; [vm_compute; reflexivity..|].
  destruct (parseOutput_urlcrazy_rows_first (H:=example_os) "/work"
              "/work/knowndomains.csv" "/work/results.csv" w w')
    as (first & more & _ & _ & Hboth & Hmore); [vm_compute; reflexivity|].
  exists first, more. split; [exact Hboth | exact Hmore].
Defined.

(** ** Running the generators *)

Ltac doCrazy_case :=
  solve [ split_and!;
          [ reflexivity
          | cbn; by rewrite ?app_nil_r, <- ?app_assoc
          | reflexivity
          | cbn; by rewrite ?app_nil_r, <- ?app_assoc
          | repeat constructor; auto ] ].

Section doCrazy_facts.
Context `{Platform}.

Lemma doCrazy_domain_run (docRoot : string) (uc dt : bool) (domain : string)
    (w : world) :
  ∃ w1 new,
    doCrazy_domain docRoot uc dt domain w = (Ok tt, w1)
    ∧ subprocesses w1 = subprocesses w ++ invocations docRoot uc dt domain
    ∧ exitfuncs w1 = exitfuncs w
    ∧ tempFiles w1 = tempFiles w ++ new
    ∧ Forall (λ p, p = path_join docRoot (rstrip domain +:+ ".uctmp")
                   ∨ p = path_join docRoot (rstrip domain +:+ ".dttmp")) new.
Proof.
  unfold doCrazy_domain, invocations, ucargs_of, dtargs_of, try_except,
    subprocess_call, subprocess_check_output, open_write, file_write,
    tempFiles_append, print, record_subprocess, set_fs, bare,
    mbind, M_bind, mret, M_ret.
  destruct uc; cbn.
  all: try destruct (run_process _ (fs w)); cbn.
  all: destruct dt; cbn.
  all: try (destruct (creatable _); cbn).
  all: try (destruct (run_process _ _); cbn).
  all: try (case_decide; cbn).
  all: eexists;
    first [ exists []; doCrazy_case
          | eexists [_]; doCrazy_case
          | eexists [_; _]; doCrazy_case ].
Qed.

(** The loop of [doCrazy] over the lines of mydomains.csv. *)
Lemma doCrazy_loop_run (docRoot : string) (uc dt : bool) (domains : list string)
    (w : world) :
  ∃ w1 new,
    for_each domains (doCrazy_domain docRoot uc dt) w = (Ok tt, w1)
    ∧ subprocesses w1
      = subprocesses w ++ concat (invocations docRoot uc dt <$> domains)
    ∧ exitfuncs w1 = exitfuncs w
    ∧ tempFiles w1 = tempFiles w ++ new
    ∧ Forall (λ p, ∃ domain,
                domain ∈ domains
                ∧ (p = path_join docRoot (rstrip domain +:+ ".uctmp")
                   ∨ p = path_join docRoot (rstrip domain +:+ ".dttmp"))) new.
Proof.
  revert w. induction domains as [|domain domains IH]; intros w.
  - exists w, []. cbn. by rewrite !app_nil_r.
  - destruct (doCrazy_domain_run docRoot uc dt domain w)
      as (w1 & new1 & Hrun & Hs1 & He1 & Ht1 & Hn1).
    destruct (IH w1) as (w2 & new2 & Hloop & Hs2 & He2 & Ht2 & Hn2).
    exists w2, (new1 ++ new2). cbn [for_each].
    rewrite (bind_ok _ _ _ _ _ Hrun), Hloop. split_and!.
    + done.
    + rewrite Hs2, Hs1. cbn. by rewrite app_assoc.
    + by rewrite He2.
    + rewrite Ht2, Ht1. by rewrite app_assoc.
    + apply Forall_app. split.
      * eapply Forall_impl; [exact Hn1|]. intros p Hp. exists domain.
        split; [apply list_elem_of_here | done].
      * eapply Forall_impl; [exact Hn2|]. intros p (d & Hd & Hp). exists d.
        split; [by apply list_elem_of_further | done].
Qed.

(** The first statement of [doCrazy] removes the old results file and
    accepts that there is none. *)
Lemma remove_old_results_run (resultsFile : string) (w : world) :
  try_except (os_remove resultsFile) (only OSError) (λ _, mret tt) w
  = (Ok tt, set_fs (delete resultsFile) w).
Proof.
  unfold try_except, os_remove.
  destruct (fs w !! resultsFile) eqn:E; cbn; [done|].
  rewrite set_fs_same; [done|]. by apply delete_id.
Qed.

(** [doCrazy] as a whole: the old results file is removed, then the loop
    runs over the lines of mydomains.csv. *)
Lemma doCrazy_run (docRoot resultsFile myDomains : string) (uc dt : bool)
    (w : world) (domains : list string) :
  resultsFile ≠ myDomains →
  fs w !! myDomains = Some domains →
  doCrazy docRoot resultsFile myDomains uc dt w
  = for_each domains (doCrazy_domain docRoot uc dt)
      (set_fs (delete resultsFile) w).
Proof.
  intros Hne Hmy. unfold doCrazy.
  rewrite bind_run, remove_old_results_run, bind_run. unfold open_read at 1. cbn [fs set_fs].
  rewrite lookup_delete_ne by done. by rewrite Hmy.
Qed.
End doCrazy_facts.

(** X10. A generator that fails never stops [doCrazy]: when mydomains.csv
    can be read (and is not the results file itself), [doCrazy] returns
    normally whatever the generator programs do, be it that they cannot be
    started, exit with an error or that an output file cannot be opened; its
    only exception is the [IOError] for a missing mydomains.csv. *)
Theorem doCrazy_always_returns `{Platform}
    (docRoot resultsFile myDomains : string) (uc dt : bool) (w : world) :
  resultsFile ≠ myDomains →
  (doCrazy docRoot resultsFile myDomains uc dt w).1
  = if fs w !! myDomains is Some _ then Ok tt else Raise IOError.
Proof.
  intros Hne. destruct (fs w !! myDomains) as [domains|] eqn:Hmy.
  - rewrite (doCrazy_run _ _ _ _ _ _ domains Hne Hmy).
    destruct (doCrazy_loop_run docRoot uc dt domains
                (set_fs (delete resultsFile) w)) as (w1 & new & -> & _).
    done.
  - unfold doCrazy.
    rewrite bind_run, remove_old_results_run, bind_run.
    unfold open_read at 1. cbn [fs set_fs].
    rewrite lookup_delete_ne by done. by rewrite Hmy.
Qed.

Lemma doCrazy_always_returns_witness :
  "/work/results.csv" ≠ "/work/mydomains.csv"
  ∧ (doCrazy (H:=example_os) "/work" "/work/results.csv" "/work/mydomains.csv"
       true true (initial example_config)).1 = Ok tt.
Proof.
  split; [discriminate|].
  exact (doCrazy_always_returns (H:=example_os) "/work" "/work/results.csv"
           "/work/mydomains.csv" true true (initial example_config)
           ltac:(discriminate)).
Defined.

(** X11. [doCrazy] starts the generators line by line: for every line of
    mydomains.csv, in the order of the file, urlcrazy when it is enabled
    and then dnstwist when it is enabled and its output file could be
    opened, each with the line without its trailing white space as the
    domain; a generator that is not enabled is never started, and nothing
    else is started. *)
Theorem doCrazy_invocations `{Platform}
    (docRoot resultsFile myDomains : string) (uc dt : bool) (w : world)
    (domains : list string) :
  resultsFile ≠ myDomains →
  fs w !! myDomains = Some domains →
  subprocesses (doCrazy docRoot resultsFile myDomains uc dt w).2
  = subprocesses w
    ++ concat ((λ domain,
         (if uc then [[urlcrazyPath; "-f"; "csv"; "-o";
                       path_join docRoot (rstrip domain +:+ ".uctmp");
                       rstrip domain]] else [])
         ++ (if dt && creatable (path_join docRoot (rstrip domain +:+ ".dttmp"))
             then [[dnstwistPath; "-r"; "-c"; rstrip domain]] else []))
        <$> domains).
Proof.
  intros Hne Hmy. rewrite (doCrazy_run _ _ _ _ _ _ domains Hne Hmy).
  destruct (doCrazy_loop_run docRoot uc dt domains
              (set_fs (delete resultsFile) w)) as (w1 & new & -> & Hs & _).
  exact Hs.
Qed.

Lemma doCrazy_invocations_witness :
  let w := initial (<["/work/mydomains.csv" := ["example.com  "; "other.org"]]>
                      example_config) in
  subprocesses (doCrazy (H:=example_os) "/work" "/work/results.csv"
                  "/work/mydomains.csv" true true w).2
  = [[urlcrazyPath; "-f"; "csv"; "-o"; "/work/example.com.uctmp"; "example.com"];
     [dnstwistPath; "-r"; "-c"; "example.com"];
     [urlcrazyPath; "-f"; "csv"; "-o"; "/work/other.org.uctmp"; "other.org"];
     [dnstwistPath; "-r"; "-c"; "other.org"]].
Proof.
  intros w.
  exact (doCrazy_invocations (H:=example_os) "/work" "/work/results.csv"
           "/work/mydomains.csv" true true w ["example.com  "; "other.org"]
           ltac:(discriminate) eq_refl).
Defined.

(** ** The registered paths and the files the cleanup leaves alone *)

Lemma length_string_app (a b : string) :
  String.length (a +:+ b) = String.length a + String.length b.
Proof.
  induction a as [|c a IH]; [done|].
  change (String c a +:+ b) with (String c (a +:+ b)). cbn. by rewrite IH.
Qed.

Lemma substring_skip (p s : string) (k : nat) :
  String.substring (String.length p) k (p +:+ s) = String.substring 0 k s.
Proof.
  induction p as [|c p IH]; [done|].
  change (String c p +:+ s) with (String c (p +:+ s)). cbn. exact IH.
Qed.

Lemma substring_all (s : string) : String.substring 0 (String.length s) s = s.
Proof. induction s as [|c s IH]; [done|]. cbn. by rewrite IH. Qed.

Lemma endswith_app (p suffix : string) : endswith (p +:+ suffix) suffix = true.
Proof.
  unfold endswith. rewrite length_string_app.
  replace (String.length p + String.length suffix - String.length suffix)
    with (String.length p) by lia.
  rewrite substring_skip, substring_all, String.eqb_refl.
  rewrite andb_true_r. apply Nat.leb_le. lia.
Qed.

(** A path joined from a name with a suffix has the suffix. *)
Lemma endswith_path_join (d name suffix : string) :
  endswith (path_join d (name +:+ suffix)) suffix = true.
Proof.
  unfold path_join. destruct (startswith _ "/"); [apply endswith_app|].
  destruct (_ || _).
  - rewrite <- append_assoc. apply endswith_app.
  - rewrite <- !append_assoc. apply endswith_app.
Qed.

Section keeps_rules.
Context (I : world → Prop).

Lemma keeps_bind {A B : Type} (m : M A) (f : A → M B) :
  keeps I m → (∀ a, keeps I (f a)) → keeps I (m ≫= f).
Proof.
  intros Hm Hf w Hw. rewrite bind_run. specialize (Hm w Hw).
  destruct (m w) as [[a|e] w1]; cbn in *; [by apply Hf | done].
Qed.
End keeps_rules.

(** A property of [tempFiles] is kept by what leaves [tempFiles] alone. *)
Lemma keeps_tempFiles {A : Type} (P : list string → Prop) (m : M A) :
  preserves tempFiles m → keeps (λ w, P (tempFiles w)) m.
Proof. intros Hm w Hw. by rewrite Hm. Qed.

Lemma preserves_registry_tempFiles {A : Type} (m : M A) :
  preserves registry m → preserves tempFiles m.
Proof. intros Hm w. specialize (Hm w). by injection Hm. Qed.

Section suffix_facts.
Context `{Platform}.

#[local] Notation "'suffixed'" :=
  (λ w : world, Forall (λ p, temp_suffix p = true) (tempFiles w)).

Lemma doCrazy_suffixed docRoot resultsFile myDomains uc dt :
  keeps suffixed (doCrazy docRoot resultsFile myDomains uc dt).
Proof.
  intros w Hw. unfold doCrazy.
  rewrite bind_run, remove_old_results_run, bind_run.
  unfold open_read at 1. destruct (fs _ !! myDomains) as [domains|]; [|done].
  destruct (doCrazy_loop_run docRoot uc dt domains
              (set_fs (delete resultsFile) w))
    as (w1 & new & -> & _ & _ & Ht & Hnew).
  cbn [snd]. rewrite Ht. apply Forall_app. split; [exact Hw|].
  eapply Forall_impl; [exact Hnew|]. intros p (domain & _ & [-> | ->]);
    unfold temp_suffix; rewrite endswith_path_join; by rewrite ?orb_true_r.
Qed.

Lemma parseOutput_tempFiles docRoot knownDomains resultsFile uc dt :
  preserves tempFiles (parseOutput docRoot knownDomains resultsFile uc dt).
Proof.
  unfold parseOutput, collect, write_results, scan. preserves_auto.
Qed.

Lemma sendMail_tempFiles resultsFile : preserves tempFiles (sendMail resultsFile).
Proof. unfold sendMail, mail. preserves_auto. Qed.

Lemma main_suffixed (argc : nat) (args : arguments) :
  keeps suffixed (main argc args).
Proof.
  unfold main.
  apply keeps_bind; [apply keeps_tempFiles; preserves_auto | intros _].
  apply keeps_bind; [apply keeps_tempFiles; preserves_auto | intros configDir].
  apply keeps_bind; [apply keeps_tempFiles; preserves_auto | intros docRoot].
  apply keeps_bind;
    [apply keeps_tempFiles, preserves_registry_tempFiles, checkPerms_registry
    | intros _].
  apply keeps_bind;
    [apply keeps_tempFiles, preserves_registry_tempFiles, checkDepends_registry
    | intros _].
  apply keeps_bind;
    [apply keeps_tempFiles, preserves_registry_tempFiles, doCleanup_registry
    | intros _].
  apply keeps_bind; [by intros w Hw | intros _].
  apply keeps_bind; [apply doCrazy_suffixed | intros _].
  apply keeps_bind; [apply keeps_tempFiles, parseOutput_tempFiles | intros _].
  destruct (email args); [apply keeps_tempFiles, sendMail_tempFiles|].
  by intros w Hw.
Qed.
End suffix_facts.

(** X12. The cleanup at exit touches intermediate files only: every path
    the run registers ends in .uctmp or .dttmp, so a file whose path has
    neither suffix (the results file, mydomains.csv, knowndomains.csv) is
    after the exit functions what it was when [main] ended. *)
Theorem cleanup_keeps_other_files `{Platform} (argc : nat) (args : arguments)
    (fs0 : gmap string (list string)) :
  (∀ p, p ∈ tempFiles (run argc args fs0).2 →
        endswith p ".uctmp" || endswith p ".dttmp" = true)
  ∧ (∀ p, endswith p ".uctmp" || endswith p ".dttmp" = false →
          fs (run argc args fs0).2 !! p
          = fs (main argc args (initial fs0)).2 !! p).
Proof.
  pose proof (main_suffixed argc args (initial fs0)) as Hsuf.
  pose proof (main_registry argc args fs0) as Hreg.
  unfold run. destruct (main argc args (initial fs0)) as [r w]. cbn [snd] in *.
  specialize (Hsuf (Forall_nil_2 _)). rewrite Forall_forall in Hsuf.
  destruct Hreg as [[= Ht He] | [docRoot He]]; rewrite He; cbn.
  - split; [|done]. intros p Hp. by apply Hsuf.
  - destruct (doCleanup_run docRoot w) as (_ & Hfs & Ht). rewrite Ht. split.
    + intros p Hp. by apply Hsuf.
    + intros p Hp. rewrite Hfs. rewrite decide_False; [done|].
      intros Hin. apply Hsuf in Hin. unfold temp_suffix in Hin. congruence.
Qed.

Lemma cleanup_keeps_other_files_witness :
  let r := run (H:=example_platform generators_work) 3 (example_args true true)
             example_config in
  tempFiles r.2 = ["/work/example.com.uctmp"; "/work/example.com.dttmp"]
  ∧ fs r.2 !! "/work/results.csv" = Some ["Domain"; "exmple.com"; "dxample.com"].
Proof.
  intros r. split; [vm_compute; reflexivity|].
  transitivity
    (fs (main (H:=example_platform generators_work) 3 (example_args true true)
           (initial example_config)).2 !! "/work/results.csv").
  - exact (proj2 (cleanup_keeps_other_files
                    (H:=example_platform generators_work)
                    3 (example_args true true) example_config)
             "/work/results.csv" eq_refl).
  - vm_compute. reflexivity.
Defined.

(** ** The exit status of a generator *)

(** X13. The two generators are treated differently when they fail.  The
    exit status of urlcrazy is not looked at: whatever it is, nothing is
    printed and the output path is registered.  dnstwist with an exit status
    other than 0 is reported and its path is not registered; when dnstwist
    cannot be started, the output file that was opened for it stays behind
    empty and unregistered. *)
Theorem generator_exit_status `{Platform} (docRoot domain : string) (w : world) :
  let ucoutfile := path_join docRoot (rstrip domain +:+ ".uctmp") in
  let dtoutfile := path_join docRoot (rstrip domain +:+ ".dttmp") in
  let ucargs := [urlcrazyPath; "-f"; "csv"; "-o"; ucoutfile; rstrip domain] in
  let dtargs := [dnstwistPath; "-r"; "-c"; rstrip domain] in
  (∀ status output fs',
     run_process ucargs (fs w) = Exited status output fs' →
     doCrazy_domain docRoot true false domain w
     = (Ok tt, World fs' (stdout w) (tempFiles w ++ [ucoutfile]) (exitfuncs w)
                 (subprocesses w ++ [ucargs]) (outbox w)))
  ∧ (∀ status output fs',
       creatable dtoutfile = true →
       run_process dtargs (<[dtoutfile := []]> (fs w)) = Exited status output fs' →
       status ≠ 0%Z →
       doCrazy_domain docRoot false true domain w
       = (Ok tt,
          World fs'
            (stdout w ++ ["Unexpected error running dnstwist: <class 'subprocess.CalledProcessError'>"])
            (tempFiles w) (exitfuncs w) (subprocesses w ++ [dtargs]) (outbox w)))
  ∧ (creatable dtoutfile = true →
     run_process dtargs (<[dtoutfile := []]> (fs w)) = NotStarted →
     doCrazy_domain docRoot false true domain w
     = (Ok tt,
        World (<[dtoutfile := []]> (fs w))
          (stdout w ++ ["Unexpected error running dnstwist: <type 'exceptions.OSError'>"])
          (tempFiles w) (exitfuncs w) (subprocesses w ++ [dtargs]) (outbox w))).
Proof.
  cbn zeta.
  unfold doCrazy_domain, try_except, subprocess_call, subprocess_check_output,
    open_write, file_write, tempFiles_append, print, record_subprocess, set_fs,
    bare, mbind, M_bind, mret, M_ret.
  split_and!.
  - intros status output fs' Hp. cbn. by rewrite Hp.
  - intros status output fs' Hc Hp Hs. cbn. rewrite Hc. cbn. rewrite Hp.
    by rewrite decide_False.
  - intros Hc Hp. cbn. rewrite Hc. cbn. by rewrite Hp.
Qed.

Lemma generator_exit_status_witness :
  doCrazy_domain (H:=example_os) "/work" false true "example.com"
    (initial example_config)
  = (Ok tt,
     World (<["/work/example.com.dttmp" := []]> example_config)
       ["Unexpected error running dnstwist: <class 'subprocess.CalledProcessError'>"]
       [] [] [[dnstwistPath; "-r"; "-c"; "example.com"]] []).
Proof.
  exact (proj1 (proj2 (generator_exit_status (H:=example_os) "/work"
                         "example.com" (initial example_config)))
           1%Z [] (<["/work/example.com.dttmp" := []]> example_config)
           eq_refl eq_refl ltac:(discriminate)).
Defined.

(** ** When the checks pass *)

Section checks_pass.
Context `{Platform}.

Lemma checkPerms_pass (docRoot resultsFile : string) (w : world) :
  ((checkPerms docRoot resultsFile w).1 = Ok tt
   ↔ access_X_OK docRoot = true ∧ tempfile_ok docRoot = true)
  ∧ ((checkPerms docRoot resultsFile w).1 = Ok tt →
     (checkPerms docRoot resultsFile w).2 = w)
  ∧ fs (checkPerms docRoot resultsFile w).2 = fs w
  ∧ subprocesses (checkPerms docRoot resultsFile w).2 = subprocesses w.
Proof.
  destruct (checkPerms_run docRoot resultsFile w)
    as [(Hx & Ht & ->) | (Hbad & w1 & -> & l1 & l2 & ->)]; cbn.
  - done.
  - split_and!; [|done..]. split; [done|].
    intros [? ?]. destruct Hbad; congruence.
Qed.

Lemma checkDepends_pass (myDomains knownDomains : string) (uc dt : bool)
    (w : world) :
  ((checkDepends myDomains knownDomains uc dt w).1 = Ok tt
   ↔ is_Some (fs w !! myDomains) ∧ is_Some (fs w !! knownDomains)
     ∧ (uc = true → is_Some (fs w !! urlcrazyPath))
     ∧ (dt = true → is_Some (fs w !! dnstwistPath)))
  ∧ ((checkDepends myDomains knownDomains uc dt w).1 = Ok tt →
     (checkDepends myDomains knownDomains uc dt w).2 = w)
  ∧ fs (checkDepends myDomains knownDomains uc dt w).2 = fs w
  ∧ subprocesses (checkDepends myDomains knownDomains uc dt w).2 = subprocesses w.
Proof.
  assert (∀ o : option (list string), o ≠ None ↔ is_Some o) as Hsome.
  { intros [x|]; split; try done; by intros [? ?]. }
  destruct (checkDepends_run myDomains knownDomains uc dt w)
    as [(Hmy & Hknown & Huc & Hdt & ->) | (Hmiss & w2 & -> & l3 & l4 & ->)];
    cbn.
  - split_and!; [|done..]. split; [|done]. intros _.
    rewrite <- !Hsome. split_and!; [done | done | | ].
    + intros Hu. by apply Huc.
    + intros Hd. by apply Hdt.
  - split_and!; [|done..]. split; [done|].
    intros (Hmy & Hknown & Huc & Hdt).
    apply Hsome in Hmy. apply Hsome in Hknown.
    destruct Hmiss as [?|[?|[[Hu ?]|[Hd ?]]]]; [done | done | |].
    + specialize (Huc Hu). apply Hsome in Huc. done.
    + specialize (Hdt Hd). apply Hsome in Hdt. done.
Qed.
End checks_pass.

(** X14. The two checks pass exactly when there is no environment error:
    [checkPerms] when the output directory can be entered and a temporary
    file can be created in it, [checkDepends] when mydomains.csv and
    knowndomains.csv exist and the program of every enabled generator
    exists (the program of a generator that is not enabled is not looked
    for).  A check that passes prints nothing and changes nothing, and
    neither check changes the file system or starts a subprocess. *)
Theorem checks_pass_exactly `{Platform} (docRoot resultsFile : string)
    (myDomains knownDomains : string) (uc dt : bool) (w : world) :
  ((checkPerms docRoot resultsFile w).1 = Ok tt
   ↔ access_X_OK docRoot = true ∧ tempfile_ok docRoot = true)
  ∧ ((checkDepends myDomains knownDomains uc dt w).1 = Ok tt
     ↔ is_Some (fs w !! myDomains) ∧ is_Some (fs w !! knownDomains)
       ∧ (uc = true → is_Some (fs w !! urlcrazyPath))
       ∧ (dt = true → is_Some (fs w !! dnstwistPath)))
  ∧ ((checkPerms docRoot resultsFile w).1 = Ok tt →
     (checkPerms docRoot resultsFile w).2 = w)
  ∧ ((checkDepends myDomains knownDomains uc dt w).1 = Ok tt →
     (checkDepends myDomains knownDomains uc dt w).2 = w)
  ∧ fs (checkPerms docRoot resultsFile w).2 = fs w
  ∧ fs (checkDepends myDomains knownDomains uc dt w).2 = fs w
  ∧ subprocesses (checkPerms docRoot resultsFile w).2 = subprocesses w
  ∧ subprocesses (checkDepends myDomains knownDomains uc dt w).2 = subprocesses w.
Proof.
  destruct (checkPerms_pass docRoot resultsFile w) as (? & ? & ? & ?).
  destruct (checkDepends_pass myDomains knownDomains uc dt w) as (? & ? & ? & ?).
  done.
Qed.

Lemma checks_pass_exactly_witness :
  let w := initial (delete urlcrazyPath example_config) in
  (checkDepends "/work/mydomains.csv" "/work/knowndomains.csv" false true w).1
    = Ok tt
  ∧ (checkDepends "/work/mydomains.csv" "/work/knowndomains.csv" true true w).1
    ≠ Ok tt.
Proof.
  intros w.
  destruct (checks_pass_exactly (H:=example_os) "/work" "/work/results.csv"
              "/work/mydomains.csv" "/work/knowndomains.csv" false true w)
    as (_ & Hdep & _).
  destruct (checks_pass_exactly (H:=example_os) "/work" "/work/results.csv"
              "/work/mydomains.csv" "/work/knowndomains.csv" true true w)
    as (_ & Hdep' & _).
  split.
  - apply Hdep. split_and!; [by eexists | by eexists | discriminate |].
    intros _. by eexists.
  - intros Hok. apply Hdep' in Hok as (_ & _ & Huc & _).
    destruct (Huc eq_refl) as [x Hx]. vm_compute in Hx. discriminate.
Defined.

(** ** A run without a generator *)

Section quiet_run.
Context `{Platform}.

Lemma directory_test_ok (dir line : string) (w : world) :
  dir = getcwd ∨ isdir dir = true →
  (if decide (dir ≠ getcwd) then
     if isdir dir then mret dir
     else print line;; print "Exiting...";; sys_exit None
   else mret dir) w = (Ok dir, w).
Proof.
  intros Hdir. destruct (decide (dir ≠ getcwd)) as [Hne|]; [|done].
  destruct Hdir as [->| ->]; done.
Qed.

Lemma doCrazy_disabled_loop (docRoot : string) (domains : list string) (w : world) :
  for_each domains (doCrazy_domain docRoot false false) w = (Ok tt, w).
Proof.
  induction domains as [|domain domains IH]; [done|].
  cbn [for_each]. by rewrite bind_run.
Qed.
End quiet_run.

(** X15. A run with neither generator enabled: when the command line and
    the environment are in order, the ledger can be read and the results
    file can be written, the run starts no subprocess, registers and prints
    nothing, replaces the results file by the header row alone and returns;
    with the mail option it sends the one message that says there are no
    new results, without an attachment. *)
Theorem run_without_generators `{Platform} (argc : nat) (args : arguments)
    (fs0 : gmap string (list string)) (domfile : list string)
    (knowndom : list pyval) :
  argc ≠ 1 →
  urlcrazy args = false → dnstwist args = false →
  config args = getcwd ∨ isdir (config args) = true →
  directory args = getcwd ∨ isdir (directory args) = true →
  access_X_OK (directory args) = true →
  tempfile_ok (directory args) = true →
  path_join (directory args) (output args)
    ≠ path_join (config args) "mydomains.csv" →
  path_join (directory args) (output args)
    ≠ path_join (config args) "knowndomains.csv" →
  is_Some (fs0 !! path_join (config args) "mydomains.csv") →
  fs0 !! path_join (config args) "knowndomains.csv" = Some domfile →
  load_knowndom domfile = Ok knowndom →
  creatable (path_join (directory args) (output args)) = true →
  (∀ msg, smtp_send msg = None) →
  run argc args fs0
  = (Ok tt,
     World (<[path_join (directory args) (output args)
              := [csv_writerow [PStr "Domain"]]]> fs0)
           [] [] [directory args] []
           (if email args
            then [Message "Daily DNS typosquatting recon report"
                    "There were no new results in today's scan" None]
            else [])).
Proof.
  intros Hargc Huc Hdt Hconf Hdir Hx Ht Hmy Hknown [domains Hdomains] Hledger
    Hload Hcreate Hsmtp.
  set (resultsFile := path_join (directory args) (output args)) in *.
  set (myDomains := path_join (config args) "mydomains.csv") in *.
  set (knownDomains := path_join (config args) "knowndomains.csv") in *.
  assert (main argc args (initial fs0)
          = (Ok tt,
             World (<[resultsFile := [csv_writerow [PStr "Domain"]]]> fs0)
                   [] [] [directory args] []
                   (if email args
                    then [Message "Daily DNS typosquatting recon report"
                            "There were no new results in today's scan" None]
                    else []))) as Hmain.
  { unfold main. destruct (decide (argc = 1)); [done|].
    rewrite ->(bind_ok _ _ _ (initial fs0) tt) by done.
    rewrite ->(bind_ok _ _ _ (initial fs0) (config args))
      by by apply directory_test_ok.
    rewrite ->(bind_ok _ _ _ (initial fs0) (directory args))
      by by apply directory_test_ok.
    fold resultsFile myDomains knownDomains.
    rewrite ->(bind_ok _ _ _ (initial fs0) tt); last first.
    { destruct (checkPerms_run (directory args) resultsFile (initial fs0))
        as [(_ & _ & ->) | ([?|?] & _)]; [done | congruence..]. }
    rewrite ->(bind_ok _ _ _ (initial fs0) tt); last first.
    { destruct (checkDepends_run myDomains knownDomains (urlcrazy args)
                  (dnstwist args) (initial fs0))
        as [(_ & _ & _ & _ & ->) | ([?|[?|[[? _]|[? _]]]] & _)];
        [done | cbn in *; congruence..]. }
    rewrite ->(bind_ok _ _ _ (initial fs0) tt)
      by by apply doCleanup_nothing_registered.
    rewrite bind_run. cbn [atexit_register initial fs stdout tempFiles
                             exitfuncs subprocesses outbox].
    rewrite bind_run, Huc, Hdt.
    erewrite doCrazy_run; [|done | exact Hdomains].
    rewrite doCrazy_disabled_loop.
    rewrite bind_run, parseOutput_run, collect_run.
    cbn [fst fs set_fs]. rewrite lookup_delete_ne by done.
    rewrite Hledger, Hload. cbn [mbind result_bind]. rewrite Hcreate.
    unfold set_fs. cbn [fs stdout tempFiles exitfuncs subprocesses outbox].
    rewrite insert_delete_eq.
    change (artifact (dedup [])) with [csv_writerow [PStr "Domain"]].
    destruct (email args); [|done].
    rewrite sendMail_run. cbn [fs]. rewrite lookup_insert_eq.
    rewrite smtp_deliver_run, Hsmtp. done. }
  unfold run. rewrite Hmain. cbn [exitfuncs run_exitfuncs].
  by rewrite doCleanup_nothing_registered.
Qed.

Lemma run_without_generators_witness :
  run (H:=example_os) 3 (Namespace "/work" "results.csv" "/work" true false false)
    example_config
  = (Ok tt,
     World (<["/work/results.csv" := ["Domain"]]> example_config)
           [] [] ["/work"] []
           [Message "Daily DNS typosquatting recon report"
              "There were no new results in today's scan" None]).
Proof.
  apply (run_without_generators (H:=example_os) 3
           (Namespace "/work" "results.csv" "/work" true false false)
           example_config ["Domain,Reason"; "examp1e.com,Squatter"]
           [PStr "examp1e.com"]).
  - lia.
  - reflexivity.
  - reflexivity.
  - by left.
  - by left.
  - reflexivity.
  - reflexivity.
  - vm_compute. discriminate.
  - vm_compute. discriminate.
  - vm_compute. by eexists.
  - vm_compute. reflexivity.
  - vm_compute. reflexivity.
  - reflexivity.
  - reflexivity.
Defined.

(** ** Directories given on the command line *)

(** X16. A configuration or output directory that is named on the command
    line, differs from the current directory and is not a directory ends the
    run before any check: two lines are printed, the first naming the
    directory (the configuration directory when both are wrong), the run
    exits through [sys.exit()] with status 0, and no file is touched and no
    subprocess started.  A directory equal to the current directory is not
    tested. *)
Theorem run_directory_not_found `{Platform} (argc : nat) (args : arguments)
    (fs0 : gmap string (list string)) :
  argc ≠ 1 →
  (config args ≠ getcwd ∧ isdir (config args) = false)
  ∨ (directory args ≠ getcwd ∧ isdir (directory args) = false) →
  run argc args fs0
  = (Raise (SystemExit None),
     World fs0
       [if decide (config args ≠ getcwd ∧ isdir (config args) = false)
        then "ERROR! Specified configuration directory " +:+ config args
             +:+ " does not exist!"
        else "ERROR! Specified output directory " +:+ directory args
             +:+ " does not exist!";
        "Exiting..."]
       [] [] [] [])
  ∧ exit_status (run argc args fs0).1 = 0%Z.
Proof.
  intros Hargc Hbad. unfold run.
  assert (main argc args (initial fs0)
          = (Raise (SystemExit None),
             World fs0
               [if decide (config args ≠ getcwd ∧ isdir (config args) = false)
                then "ERROR! Specified configuration directory " +:+ config args
                     +:+ " does not exist!"
                else "ERROR! Specified output directory " +:+ directory args
                     +:+ " does not exist!";
                "Exiting..."]
               [] [] [] [])) as ->; [|done].
  unfold main. destruct (decide (argc = 1)); [done|].
  rewrite ->(bind_ok _ _ _ (initial fs0) tt) by done.
  rewrite bind_run.
  destruct (decide (config args ≠ getcwd ∧ isdir (config args) = false))
    as [[Hne Hnd]|Hok].
  - rewrite decide_True by done. by rewrite Hnd.
  - destruct Hbad as [?|[Hne Hnd]]; [done|].
    rewrite directory_test_ok; last first.
    { destruct (decide (config args = getcwd)); [by left|].
      right. destruct (isdir (config args)); [done|]. by destruct Hok. }
    rewrite bind_run, decide_True by done. by rewrite Hnd.
Qed.

Lemma run_directory_not_found_witness :
  run (H:=strict_os) 3 (Namespace "/work" "results.csv" "/nowhere" false true true)
    example_config
  = (Raise (SystemExit None),
     World example_config
       ["ERROR! Specified output directory /nowhere does not exist!";
        "Exiting..."] [] [] [] []).
Proof.
  etrans.
  - apply (run_directory_not_found (H:=strict_os) 3
             (Namespace "/work" "results.csv" "/nowhere" false true true)
             example_config).
    + lia.
    + right. split; [discriminate | reflexivity].
  - vm_compute. reflexivity.
Defined.

(** ** dnstwist files that cannot be read to the end *)

Section dnstwist_files.
Context `{Platform}.

(** A loop that returns has run its body on every element. *)
Lemma fold_result_ok_body {R S : Type} (body : S → R → result S)
    (rows : list R) (s s' : S) (x : R) :
  fold_result rows s body = Ok s' → x ∈ rows →
  ∃ s0 s1, body s0 x = Ok s1.
Proof.
  revert s. induction rows as [|y rows IH]; intros s Hf Hx;
    [by apply elem_of_nil in Hx|].
  cbn in Hf. destruct (body s y) as [s1|e] eqn:E; [|done].
  apply elem_of_cons in Hx as [->|Hx]; [by exists s, s1 | by eapply IH].
Qed.

Lemma parse_dnstwist_unreadable (knowndom s s' : list pyval)
    (csvfile : list string) :
  length (records (csv_reader csvfile)) < 2
  ∨ (∃ row, row ∈ drop 2 (records (csv_reader csvfile)) ∧ length row < 2) →
  parse_dnstwist knowndom s csvfile ≠ Ok s'.
Proof.
  unfold parse_dnstwist. intros [Hshort | (row & Hrow & Hlen)] Hok.
  - destruct (records (csv_reader csvfile)) as [|? [|? rows]]; [done..|].
    cbn in Hshort. lia.
  - destruct (records (csv_reader csvfile)) as [|? [|? rows]]; [done..|].
    cbn [drop] in Hrow. apply iterate_ok in Hok.
    destruct (fold_result_ok_body _ _ _ _ _ Hok Hrow) as (s0 & s1 & Hbody).
    unfold dnstwist_row in Hbody.
    rewrite (lookup_ge_None_2 row 1) in Hbody by lia. done.
Qed.
End dnstwist_files.

Lemma parseOutput_all_or_nothing_lemma `{Platform}
    (docRoot knownDomains resultsFile : string) (uc dt : bool) (w : world) :
  (∃ domains, (collect docRoot knownDomains uc dt w).1 = Ok domains)
  ∨ ((∃ e, (parseOutput docRoot knownDomains resultsFile uc dt w).1 = Raise e)
     ∧ (parseOutput docRoot knownDomains resultsFile uc dt w).2 = w).
Proof.
  rewrite parseOutput_run.
  destruct (collect docRoot knownDomains uc dt w).1 as [domains|e].
  - left. by exists domains.
  - right. split; [by exists e | done].
Qed.

(** X17. With dnstwist enabled, one .dttmp file in the output directory
    that has fewer than two records (an empty file, as a failed dnstwist
    leaves it), or a record after the first two with fewer than two fields,
    keeps [parseOutput] from returning: it ends with an exception, writes no
    results file and leaves the state as it was, whatever the other files
    hold. *)
Theorem parseOutput_unreadable_dnstwist_file `{Platform}
    (docRoot knownDomains resultsFile : string) (uc : bool) (w : world)
    (f : string) (csvfile : list string) :
  entry_name f = true → endswith f ".dttmp" = true →
  fs w !! path_join docRoot f = Some csvfile →
  length (records (csv_reader csvfile)) < 2
  ∨ (∃ row, row ∈ drop 2 (records (csv_reader csvfile)) ∧ length row < 2) →
  (∃ e, (parseOutput docRoot knownDomains resultsFile uc true w).1 = Raise e)
  ∧ (parseOutput docRoot knownDomains resultsFile uc true w).2 = w.
Proof.
  intros En Hs Hf Hbad.
  destruct (parseOutput_all_or_nothing_lemma docRoot knownDomains resultsFile
              uc true w) as [[collected Hok] | Hraise]; [|done].
  exfalso. rewrite collect_run in Hok. cbn [fst] in Hok.
  destruct (fs w !! knownDomains) as [domfile|]; [|done].
  destruct (load_knowndom domfile) as [knowndom|e]; [|done].
  cbn [mbind result_bind] in Hok.
  destruct (if uc then _ else _) as [ucd|e]; cbn [mbind result_bind] in Hok;
    [|done].
  destruct (fold_result _ ucd _) as [domains|e] eqn:Edt; [|done].
  eapply fold_result_ok_body in Edt as (s0 & s1 & Hbody);
    [|by apply (elem_of_scanned docRoot ".dttmp" f (fs w))].
  cbn in Hbody. rewrite Hf in Hbody.
  by eapply parse_dnstwist_unreadable.
Qed.

Lemma parseOutput_unreadable_dnstwist_file_witness :
  let w := initial (<["/work/example.com.dttmp" := []]> parse_directory) in
  (parseOutput (H:=example_os) "/work" "/work/knowndomains.csv"
     "/work/results.csv" true true w).1 = Raise StopIteration
  ∧ (parseOutput (H:=example_os) "/work" "/work/knowndomains.csv"
       "/work/results.csv" true true w).2 = w.
Proof.
  intros w. split; [vm_compute; reflexivity|].
  apply (parseOutput_unreadable_dnstwist_file (H:=example_os) "/work"
           "/work/knowndomains.csv" "/work/results.csv" true w
           "example.com.dttmp" []).
  - reflexivity.
  - reflexivity.
  - vm_compute. reflexivity.
  - left. vm_compute. lia.
Defined.

(** ** The process killed by a signal *)

Section killed_facts.
Context `{Platform}.

Lemma bind_assoc_run {A B C : Type} (m : M A) (f : A → M B) (g : B → M C)
    (w : world) :
  ((m ≫= f) ≫= g) w = (m ≫= λ a, f a ≫= g) w.
Proof. rewrite !bind_run. by destruct (m w) as [[a|e] w1]. Qed.

Lemma bind_ext_run {A B : Type} (m : M A) (f g : A → M B) (w : world) :
  (∀ a w1, f a w1 = g a w1) → (m ≫= f) w = (m ≫= g) w.
Proof. intros Hfg. rewrite !bind_run. by destruct (m w) as [[a|e] w1]. Qed.

(** [startup] is the beginning of [main]: [main] is [startup] followed by
    the three phases of the run. *)
Lemma main_after_startup (argc : nat) (args : arguments) (w : world) :
  main argc args w
  = (paths ← startup argc args;
     doCrazy paths.1.1.1 paths.1.1.2 paths.1.2 (urlcrazy args) (dnstwist args);;
     parseOutput paths.1.1.1 paths.2 paths.1.1.2 (urlcrazy args) (dnstwist args);;
     if email args then sendMail paths.1.1.2 else mret tt) w.
Proof.
  unfold main, startup.
  rewrite bind_assoc_run. apply bind_ext_run. intros _ w1.
  rewrite bind_assoc_run. apply bind_ext_run. intros configDir w2.
  rewrite bind_assoc_run. apply bind_ext_run. intros docRoot w3.
  rewrite bind_assoc_run. apply bind_ext_run. intros _ w4.
  rewrite bind_assoc_run. apply bind_ext_run. intros _ w5.
  rewrite bind_assoc_run. apply bind_ext_run. intros _ w6.
  rewrite bind_assoc_run. apply bind_ext_run. intros _ w7.
  reflexivity.
Qed.

(** [doCrazy_lines] with all the lines is [doCrazy]. *)
Lemma doCrazy_lines_all (docRoot resultsFile myDomains : string) (uc dt : bool)
    (n : nat) (w : world) (domains : list string) :
  resultsFile ≠ myDomains →
  fs w !! myDomains = Some domains → length domains ≤ n →
  doCrazy_lines docRoot resultsFile myDomains uc dt n w
  = doCrazy docRoot resultsFile myDomains uc dt w.
Proof.
  intros Hne Hmy Hn. rewrite (doCrazy_run _ _ _ _ _ _ domains Hne Hmy).
  unfold doCrazy_lines.
  rewrite bind_run, remove_old_results_run, bind_run.
  unfold open_read at 1. cbn [fs set_fs].
  rewrite lookup_delete_ne by done. rewrite Hmy. by rewrite take_ge.
Qed.

Lemma for_each_app {A : Type} (l1 l2 : list A) (body : A → M unit) (w : world) :
  for_each (l1 ++ l2) body w = (for_each l1 body;; for_each l2 body) w.
Proof.
  revert w. induction l1 as [|x l1 IH]; intros w; [done|].
  cbn [for_each app]. rewrite bind_assoc_run. apply bind_ext_run.
  intros _ w1. apply IH.
Qed.

(** For every [n] the state of [doCrazy_lines] is a state [doCrazy] goes
    through: [doCrazy] is [doCrazy_lines] followed by the loop over the
    lines that are left. *)
Lemma doCrazy_after_lines (docRoot resultsFile myDomains : string) (uc dt : bool)
    (n : nat) (w : world) (domains : list string) :
  resultsFile ≠ myDomains →
  fs w !! myDomains = Some domains →
  doCrazy docRoot resultsFile myDomains uc dt w
  = (doCrazy_lines docRoot resultsFile myDomains uc dt n;;
     for_each (drop n domains) (doCrazy_domain docRoot uc dt)) w.
Proof.
  intros Hne Hmy. rewrite (doCrazy_run _ _ _ _ _ _ domains Hne Hmy).
  unfold doCrazy_lines.
  rewrite bind_assoc_run, bind_run, remove_old_results_run.
  rewrite bind_assoc_run, bind_run. unfold open_read at 1. cbn [fs set_fs].
  rewrite lookup_delete_ne by done. rewrite Hmy.
  rewrite <- for_each_app. by rewrite take_drop.
Qed.
End killed_facts.

(** C6 as the claim states it fails: the process of the example is killed
    by a signal after [doCrazy] has handled the one line of mydomains.csv
    (both generators worked and their files are registered); [doCleanup] is
    registered as exit function and has not run, and the registered files
    are still there. *)
Lemma killed_process_leaves_registered_files :
  let w := killed_run (H:=example_platform generators_work) 1 3
             (example_args true true) example_config in
  exitfuncs w = ["/work"]
  ∧ tempFiles w = ["/work/example.com.uctmp"; "/work/example.com.dttmp"]
  ∧ fs w !! "/work/example.com.uctmp" = Some urlcrazy_output
  ∧ ¬ (∀ p, p ∈ tempFiles w → fs w !! p = None).
Proof.
  intros w.
  assert (tempFiles w = ["/work/example.com.uctmp"; "/work/example.com.dttmp"])
    as Ht by (vm_compute; reflexivity).
  assert (fs w !! "/work/example.com.uctmp" = Some urlcrazy_output)
    as Hf by (vm_compute; reflexivity).
  split_and!; [vm_compute; reflexivity | exact Ht | exact Hf |].
  intros Hall.
  assert (fs w !! "/work/example.com.uctmp" = None) as Hnone.
  { apply Hall. rewrite Ht. apply list_elem_of_here. }
  rewrite Hf in Hnone. discriminate.
Qed.
